(** * ESP32 + DHT22 firmware: the measurement loop and its web outputs

    A shallow embedding of [src/main.cpp]: the global measurement
    variables, [setup], [loop], and the output functions behind the web
    routes ([processOutput], [outputTemperature], [outputHumidity],
    [outputMeasureTime], [outputCurrentTime]).

    - [unsigned long] is 32 bits on the ESP32: it is a [Z] reduced modulo
      [2^32] wherever the C++ arithmetic wraps.
    - [float] is IEEE 754 binary32 and [double] is binary64, both as
      [spec_float] with the operations of [SpecFloat] at the matching
      precision (round to nearest, ties to even).
    - The Arduino calls ([millis], [digitalWrite], the NTP client, the DHT
      sensor, [Serial]) are recorded as events; what they return comes from
      an environment record. *)

From Stdlib Require Import ZArith List String Bool Lia QArith Qabs.
From Stdlib Require Import Floats.SpecFloat.
Import ListNotations.
Local Open Scope string_scope.
Local Open Scope list_scope.
Local Open Scope Z_scope.

(** ** IEEE 754 arithmetic at the two widths the firmware uses *)

Module IEEE.

Definition float := spec_float.   (* C++ float  : binary32 *)
Definition double := spec_float.  (* C++ double : binary64 *)

Definition prec32 : Z := 24.
Definition emax32 : Z := 128.
Definition prec64 : Z := 53.
Definition emax64 : Z := 1024.

(** Rounding of a value to a format; zeros, infinities and NaN carry over. *)
Definition round_to (prec emax : Z) (x : spec_float) : spec_float :=
  match x with
  | S754_finite s m e => binary_round prec emax s m e
  | _ => x
  end.

(** Implicit conversions of the C++ expression [double op float] and of
    the assignment [float = double]. *)
Definition double_of_float (x : float) : double := round_to prec64 emax64 x.
Definition float_of_double (x : double) : float := round_to prec32 emax32 x.

Definition dadd : double -> double -> double := SFadd prec64 emax64.
Definition dmul : double -> double -> double := SFmul prec64 emax64.

(** A decimal literal [num/den] of type double: both integers are exact
    in binary64 and the division rounds correctly, which gives the double
    nearest to the decimal. *)
Definition double_literal (num den : positive) : double :=
  SFdiv prec64 emax64
    (binary_round prec64 emax64 false num 0)
    (binary_round prec64 emax64 false den 0).

(** The binary32 number [m * 2^e] (exact when [m] fits in 24 bits). *)
Definition float_dyadic (m e : Z) : float :=
  binary_normalize prec32 emax32 m e false.

(** [isnan] of <math.h>. *)
Definition isnan (x : spec_float) : bool :=
  match x with
  | S754_nan => true
  | _ => false
  end.

(** The rational value of a finite number (0 for the others). *)
Definition to_Q (x : spec_float) : Q :=
  match x with
  | S754_finite s m e => (inject_Z (cond_Zopp s (Zpos m)) * Qpower 2 e)%Q
  | _ => 0%Q
  end.

End IEEE.
Import IEEE.

(** ** Global symbols *)

Inductive Level := LOW | HIGH.
Definition LED_ON : Level := HIGH.
Definition LED_OFF : Level := LOW.

Inductive Pin := LED_BUILTIN | GPIO (n : Z).
Definition STATUS_LED_PIN : Pin := LED_BUILTIN.
Definition RESET_CONFIG_PIN : Pin := GPIO 32.
Definition DHT_PIN : Pin := GPIO 27.

Definition DHT_MEASURETIME : Z := 30000.

(** [unsigned long]: 32 bits. *)
Definition ULONG_WIDTH : Z := 32.
Definition ULONG_MAX : Z := 2 ^ ULONG_WIDTH - 1.
Definition wrap_ulong (z : Z) : Z := z mod 2 ^ ULONG_WIDTH.
(** [a - b] on [unsigned long]. *)
Definition ulong_sub (a b : Z) : Z := wrap_ulong (a - b).

(** ** Global variables *)

Record Globals := mkGlobals {
  fTmp : float;           (* Temperature (Celsius) *)
  fHum : float;           (* Humidity (percent) *)
  fHtIdx : float;         (* Heat Index (Celsius) *)
  fSndSpd : float;        (* Sound Speed (m/s) *)
  sMeasureTime : string;  (* measurement time (HH:MM:SS) *)
  ulTime : Z;             (* current time (milliseconds) *)
  ulMeasureTime : Z;      (* last measurement time (milliseconds) *)
  bRunServer : bool       (* Server running normally ? *)
}.

(** The five measurement variables together: what the web routes show. *)
Record Sample := mkSample {
  temperatureCelsius : float;
  humidityPercent : float;
  heatIndexCelsius : float;
  soundSpeedMetersPerSecond : float;
  formattedTimestamp : string
}.

Definition read (g : Globals) : Sample :=
  mkSample (fTmp g) (fHum g) (fHtIdx g) (fSndSpd g) (sMeasureTime g).

(** The variables are declared at namespace scope without initialiser
    ([float fTmp;] ... [String sMeasureTime;] [unsigned long ulTime;]
    [bool bRunServer;]) or with [= 0UL]: static storage is
    zero-initialised, and [String]'s default constructor gives the empty
    string. *)
Definition startup : Globals :=
  {| fTmp := S754_zero false;
     fHum := S754_zero false;
     fHtIdx := S754_zero false;
     fSndSpd := S754_zero false;
     sMeasureTime := "";
     ulTime := 0;
     ulMeasureTime := 0;
     bRunServer := false |}.

Definition set_fTmp (x : float) (g : Globals) : Globals :=
  mkGlobals x (fHum g) (fHtIdx g) (fSndSpd g) (sMeasureTime g)
            (ulTime g) (ulMeasureTime g) (bRunServer g).
Definition set_fHum (x : float) (g : Globals) : Globals :=
  mkGlobals (fTmp g) x (fHtIdx g) (fSndSpd g) (sMeasureTime g)
            (ulTime g) (ulMeasureTime g) (bRunServer g).
Definition set_fHtIdx (x : float) (g : Globals) : Globals :=
  mkGlobals (fTmp g) (fHum g) x (fSndSpd g) (sMeasureTime g)
            (ulTime g) (ulMeasureTime g) (bRunServer g).
Definition set_fSndSpd (x : float) (g : Globals) : Globals :=
  mkGlobals (fTmp g) (fHum g) (fHtIdx g) x (sMeasureTime g)
            (ulTime g) (ulMeasureTime g) (bRunServer g).
Definition set_sMeasureTime (s : string) (g : Globals) : Globals :=
  mkGlobals (fTmp g) (fHum g) (fHtIdx g) (fSndSpd g) s
            (ulTime g) (ulMeasureTime g) (bRunServer g).
Definition set_ulTime (t : Z) (g : Globals) : Globals :=
  mkGlobals (fTmp g) (fHum g) (fHtIdx g) (fSndSpd g) (sMeasureTime g)
            t (ulMeasureTime g) (bRunServer g).
Definition set_ulMeasureTime (t : Z) (g : Globals) : Globals :=
  mkGlobals (fTmp g) (fHum g) (fHtIdx g) (fSndSpd g) (sMeasureTime g)
            (ulTime g) t (bRunServer g).
Definition set_bRunServer (b : bool) (g : Globals) : Globals :=
  mkGlobals (fTmp g) (fHum g) (fHtIdx g) (fSndSpd g) (sMeasureTime g)
            (ulTime g) (ulMeasureTime g) b.

(** ** Events and environment *)

(** What the outside world answers during one call of [loop] or of an
    output function. *)
Record Env := mkEnv {
  millis : Z;               (* millis(), an unsigned long *)
  formattedTime : string;   (* clientNTP.getFormattedTime() *)
  temperature : float;      (* dhtSensor.readTemperature(false) *)
  humidity : float          (* dhtSensor.readHumidity() *)
}.

(** What the outside world answers during [setup]. *)
Record SetupEnv := mkSetupEnv {
  autoConnect : bool;       (* wm.autoConnect() *)
  localIP : string;         (* WiFi.localIP(), as printed *)
  bootTime : string         (* clientNTP.getFormattedTime() *)
}.

Inductive Event :=
| CallMillis
| DigitalWrite (pin : Pin) (level : Level)
| NtpUpdate
| NtpGetFormattedTime
| DhtReadTemperature (isFahrenheit : bool)
| DhtReadHumidity
| DhtComputeHeatIndex (t h : float) (isFahrenheit : bool)
| SerialPrint (s : string)
| SerialPrintFloat (x : float) (digits : Z)
| SerialPrintln (s : string)
| DelayMicroseconds (us : Z)
| WmAutoConnect
| WiFiLocalIP
| LibraryCall (callee : string) (args : list string)  (* configuration calls *)
| Store (g : Globals).   (* an assignment to a global: the variables after it *)

(** ** State and trace monad *)

Definition M (A : Type) : Type := Globals -> A * Globals * list Event.

Definition ret {A} (a : A) : M A := fun g => (a, g, []).

Definition bind {A B} (c : M A) (k : A -> M B) : M B :=
  fun g =>
    let '(a, g1, t1) := c g in
    let '(b, g2, t2) := k a g1 in
    (b, g2, t1 ++ t2).

Definition get : M Globals := fun g => (g, g, []).
Definition emit (e : Event) : M unit := fun g => (tt, g, [e]).
(** An assignment to a global variable. *)
Definition assign (f : Globals -> Globals) : M unit :=
  fun g => (tt, f g, [Store (f g)]).

Definition value {A} (r : A * Globals * list Event) : A := fst (fst r).
Definition globals {A} (r : A * Globals * list Event) : Globals := snd (fst r).
Definition trace {A} (r : A * Globals * list Event) : list Event := snd r.

Declare Scope fw_scope.
Delimit Scope fw_scope with fw.
Notation "x <- c ;; k" := (bind c (fun x => k))
  (at level 100, c at next level, right associativity) : fw_scope.
Notation "c ;; k" := (bind c (fun _ => k))
  (at level 100, right associativity) : fw_scope.
Local Open Scope fw_scope.

(** ** The firmware *)

Section Firmware.

(** Two functions of the libraries the sketch is linked against, whose
    code is not part of the sketch: [DHT::computeHeatIndex] of the sensor
    library included as "DHT.h", and the [String(float)] constructor of
    the Arduino core (two decimal places by default). *)
Variable computeHeatIndex : float -> float -> bool -> float.
Variable String_of_float : float -> string.

(** *** External calls *)

Definition call_millis (w : Env) : M Z :=
  emit CallMillis ;; ret (wrap_ulong (millis w)).

Definition digitalWrite (pin : Pin) (level : Level) : M unit :=
  emit (DigitalWrite pin level).

Definition clientNTP_update : M unit := emit NtpUpdate.

Definition clientNTP_getFormattedTime (w : Env) : M string :=
  emit NtpGetFormattedTime ;; ret (formattedTime w).

Definition dhtSensor_readTemperature (w : Env) (isFahrenheit : bool) : M float :=
  emit (DhtReadTemperature isFahrenheit) ;; ret (temperature w).

Definition dhtSensor_readHumidity (w : Env) : M float :=
  emit DhtReadHumidity ;; ret (humidity w).

Definition dhtSensor_computeHeatIndex (t h : float) (isFahrenheit : bool) : M float :=
  emit (DhtComputeHeatIndex t h isFahrenheit) ;;
  ret (computeHeatIndex t h isFahrenheit).

Definition Serial_print (s : string) : M unit := emit (SerialPrint s).
Definition Serial_print_float (x : float) (digits : Z) : M unit :=
  emit (SerialPrintFloat x digits).
Definition Serial_println (s : string) : M unit := emit (SerialPrintln s).
Definition delayMicroseconds (us : Z) : M unit := emit (DelayMicroseconds us).

Definition library_call (callee : string) (args : list string) : M unit :=
  emit (LibraryCall callee args).

Definition wm_autoConnect (e : SetupEnv) : M bool :=
  emit WmAutoConnect ;; ret (autoConnect e).

Definition WiFi_localIP (e : SetupEnv) : M string :=
  emit WiFiLocalIP ;; ret (localIP e).

(** *** [setup]

    The one global variable of the sketch that [setup] assigns is
    [bRunServer]. *)
Definition setup (e : SetupEnv) : M unit :=
  library_call "WiFi.mode" ["WIFI_STA"] ;;
  library_call "Serial.begin" ["115200"] ;;
  library_call "dhtSensor.begin" [] ;;
  library_call "pinMode" ["RESET_CONFIG_PIN"; "INPUT_PULLUP"] ;;
  library_call "pinMode" ["STATUS_LED_PIN"; "OUTPUT"] ;;
  library_call "ledTicker.attach" ["0.6"; "tickLED"] ;;
  library_call "wm.setClass" ["invert"] ;;
  library_call "wm.setAPCallback" ["configModeCallback"] ;;
  library_call "wm.setConfigPortalTimeout" ["120"] ;;
  library_call "wm.setAPClientCheck" ["true"] ;;
  b <- wm_autoConnect e ;;
  assign (set_bRunServer b) ;;
  g <- get ;;
  if negb (bRunServer g)
  then Serial_println "Failed to connect"
  else
    library_call "ledTicker.detach" [] ;;
    Serial_print "Connected to WiFi : IP=" ;;
    ip <- WiFi_localIP e ;;
    Serial_println ip ;;
    digitalWrite STATUS_LED_PIN HIGH ;;
    library_call "clientNTP.begin" [] ;;
    clientNTP_update ;;
    library_call "oWebServer.on" ["/"; "HTTP_GET"; "index_html"; "processOutput"] ;;
    library_call "oWebServer.on" ["/temperature"; "HTTP_GET"; "outputTemperature"] ;;
    library_call "oWebServer.on" ["/humidity"; "HTTP_GET"; "outputHumidity"] ;;
    library_call "oWebServer.on" ["/measuretime"; "HTTP_GET"; "outputMeasureTime"] ;;
    library_call "oWebServer.on" ["/refreshtime"; "HTTP_GET"; "outputCurrentTime"] ;;
    library_call "oWebServer.begin" [] ;;
    Serial_println "" ;;
    Serial_print "Ready ! Time : " ;;
    emit NtpGetFormattedTime ;;
    Serial_println (bootTime e) ;;
    Serial_print "Station IP   : " ;;
    ip <- WiFi_localIP e ;;
    Serial_println ip ;;
    Serial_println "" ;;
    digitalWrite STATUS_LED_PIN LOW.

(** *** [loop] *)

Definition loop (w : Env) : M unit :=
  t <- call_millis w ;;
  assign (set_ulTime t) ;;
  g <- get ;;
  (if bRunServer g && (DHT_MEASURETIME <? ulong_sub (ulTime g) (ulMeasureTime g))
   then
     digitalWrite LED_BUILTIN LED_ON ;;
     clientNTP_update ;;
     s <- clientNTP_getFormattedTime w ;;
     assign (set_sMeasureTime s) ;;
     t <- dhtSensor_readTemperature w false ;;
     assign (set_fTmp t) ;;
     h <- dhtSensor_readHumidity w ;;
     assign (set_fHum h) ;;
     g <- get ;;
     hi <- dhtSensor_computeHeatIndex (fTmp g) (fHum g) false ;;
     assign (set_fHtIdx hi) ;;
     g <- get ;;
     assign (set_fSndSpd
               (float_of_double
                  (dadd (dadd (double_literal 3314 10)
                              (dmul (double_literal 606 1000)
                                    (double_of_float (fTmp g))))
                        (dmul (double_literal 124 10000)
                              (double_of_float (fHum g)))))) ;;
     g <- get ;;
     assign (set_ulMeasureTime (ulTime g)) ;;
     g <- get ;;
     Serial_print (sMeasureTime g) ;;
     Serial_print " - " ;;
     Serial_print "Temp.  : " ;;
     Serial_print_float (fTmp g) 1 ;;
     Serial_print " C" ;;
     Serial_print " - Humid. : " ;;
     Serial_print_float (fHum g) 1 ;;
     Serial_print " %" ;;
     Serial_print " - Heat Idx. : " ;;
     Serial_print_float (fHtIdx g) 1 ;;
     Serial_print " C" ;;
     Serial_print " - Snd.Sp.: " ;;
     Serial_print_float (fSndSpd g) 1 ;;
     Serial_print " m/s " ;;
     Serial_println "" ;;
     digitalWrite LED_BUILTIN LED_OFF
   else ret tt) ;;
  delayMicroseconds 100.

(** The Arduino runtime calls [loop] again and again: one environment
    per call. *)
Fixpoint run (ws : list Env) : M unit :=
  match ws with
  | [] => ret tt
  | w :: ws' => loop w ;; run ws'
  end.

(** *** Output functions of the web routes *)

Definition outputTemperature : M string :=
  g <- get ;;
  if isnan (fTmp g)
  then Serial_println "Failed to get Temperature from DHT sensor!" ;; ret "N/A"
  else ret (String_of_float (fTmp g)).

Definition outputHumidity : M string :=
  g <- get ;;
  if isnan (fHum g)
  then Serial_println "Failed to get Humidity from DHT sensor!" ;; ret "N/A"
  else ret (String_of_float (fHum g)).

Definition outputMeasureTime : M string :=
  g <- get ;; ret (sMeasureTime g).

Definition outputCurrentTime (w : Env) : M string :=
  clientNTP_getFormattedTime w.

(** Replaces placeholder with DHT values. *)
Definition processOutput (w : Env) (var : string) : M string :=
  if String.eqb var "TEMPERATURE" then outputTemperature
  else if String.eqb var "HUMIDITY" then outputHumidity
  else if String.eqb var "MEASURETIME" then outputMeasureTime
  else if String.eqb var "REFRESHTIME" then outputCurrentTime w
  else ret "".

End Firmware.

(** The globals when [setup] returns. *)
Definition after_setup (e : SetupEnv) : Globals := globals (setup e startup).

(** ** Reading traces *)

Definition is_sensor_read (e : Event) : bool :=
  match e with
  | DhtReadTemperature _ | DhtReadHumidity => true
  | _ => false
  end.

(** An acquisition cycle ran during the poll. *)
Definition fires (computeHeatIndex : float -> float -> bool -> float)
  (w : Env) (g : Globals) : bool :=
  existsb is_sensor_read (trace (loop computeHeatIndex w g)).

(** How many sensor reads a trace has: two for each acquisition cycle. *)
Definition sensor_reads (tr : list Event) : nat :=
  List.length (filter is_sensor_read tr).

(** The successive contents of the global variables during a trace. *)
Fixpoint snapshots (tr : list Event) : list Globals :=
  match tr with
  | [] => []
  | Store g :: tr' => g :: snapshots tr'
  | _ :: tr' => snapshots tr'
  end.

(** The gating test of [loop], on the globals before the poll. *)
Definition elapsed (w : Env) (g : Globals) : Z :=
  ulong_sub (wrap_ulong (millis w)) (ulMeasureTime g).

Definition due (w : Env) (g : Globals) : bool :=
  bRunServer g && (DHT_MEASURETIME <? elapsed w g).

(** Position of the first event satisfying [p]. *)
Fixpoint index_of (p : Event -> bool) (tr : list Event) : option nat :=
  match tr with
  | [] => None
  | e :: tr' => if p e then Some O
                else match index_of p tr' with
                     | Some i => Some (S i)
                     | None => None
                     end
  end.

(** Both events occur and the first [p] comes before the first [q]. *)
Definition precedes (p q : Event -> bool) (tr : list Event) : bool :=
  match index_of p tr, index_of q tr with
  | Some i, Some j => Nat.ltb i j
  | _, _ => false
  end.

Definition is_led (l : Level) (e : Event) : bool :=
  match e, l with
  | DigitalWrite LED_BUILTIN HIGH, HIGH => true
  | DigitalWrite LED_BUILTIN LOW, LOW => true
  | _, _ => false
  end.
Definition is_readTemperature (e : Event) : bool :=
  match e with DhtReadTemperature _ => true | _ => false end.
Definition is_readHumidity (e : Event) : bool :=
  match e with DhtReadHumidity => true | _ => false end.
Definition is_ntpUpdate (e : Event) : bool :=
  match e with NtpUpdate => true | _ => false end.
Definition is_ntpGetFormattedTime (e : Event) : bool :=
  match e with NtpGetFormattedTime => true | _ => false end.

(** ** The specification's words *)

(** "soundSpeed = 331.4 + 0.606*temperatureCelsius + 0.0124*humidityPercent",
    evaluated as C++ evaluates it: in double, then stored in a float. *)
Definition soundSpeed_spec (temperatureC humidityPct : float) : float :=
  float_of_double
    (dadd (dadd (double_literal 3314 10)
                (dmul (double_literal 606 1000) (double_of_float temperatureC)))
          (dmul (double_literal 124 10000) (double_of_float humidityPct))).

(** Modelled from the spec: [DHT::computeHeatIndex] belongs to the sensor
    library included as "DHT.h", whose code is not under src/.  The
    specification says of it: "if either input is not-a-number, the derived
    value is also not-a-number". *)
Definition propagates_nan (computeHeatIndex : float -> float -> bool -> float) : Prop :=
  forall t h isFahrenheit,
    isnan t || isnan h = true -> isnan (computeHeatIndex t h isFahrenheit) = true.

(** The order of one acquisition cycle as the specification lists it: busy
    indicator on, temperature, humidity, then the time source ([update],
    [getFormattedTime]), then the time of last acquisition, then busy
    indicator off. *)
Definition spec_order (tr : list Event) : bool :=
  precedes (is_led LED_ON) is_readTemperature tr
  && precedes is_readTemperature is_readHumidity tr
  && precedes is_readHumidity is_ntpUpdate tr
  && precedes is_ntpUpdate is_ntpGetFormattedTime tr
  && precedes is_ntpGetFormattedTime (is_led LED_OFF) tr.

(** The order the statements of [loop] have. *)
Definition code_order (tr : list Event) : bool :=
  precedes (is_led LED_ON) is_ntpUpdate tr
  && precedes is_ntpUpdate is_ntpGetFormattedTime tr
  && precedes is_ntpGetFormattedTime is_readTemperature tr
  && precedes is_readTemperature is_readHumidity tr
  && precedes is_readHumidity (is_led LED_OFF) tr.

(** A sample whose first [k] fields, in the order [loop] assigns them
    (timestamp, temperature, humidity, heat index, sound speed), come from
    [new] and the others from [old]. *)
Definition mixed (k : nat) (old new : Sample) : Sample :=
  mkSample
    (if Nat.leb 2 k then temperatureCelsius new else temperatureCelsius old)
    (if Nat.leb 3 k then humidityPercent new else humidityPercent old)
    (if Nat.leb 4 k then heatIndexCelsius new else heatIndexCelsius old)
    (if Nat.leb 5 k then soundSpeedMetersPerSecond new
     else soundSpeedMetersPerSecond old)
    (if Nat.leb 1 k then formattedTimestamp new else formattedTimestamp old).

(** ** Instances of the library functions, to run the model on examples *)

(** The simple heat-index formula of the US weather service, on Celsius
    input: [0.5 * (F + 61.0 + (F - 68.0) * 1.2 + H * 0.094)] with
    [F = C * 1.8 + 32], back to Celsius by [(x - 32) * 5 / 9]. *)
Definition exampleHeatIndex (t h : float) (isFahrenheit : bool) : float :=
  let dsub := SFsub prec64 emax64 in
  let ddiv := SFdiv prec64 emax64 in
  let f := if isFahrenheit then double_of_float t
           else dadd (dmul (double_of_float t) (double_literal 18 10))
                     (double_literal 32 1) in
  let hi := dmul (double_literal 5 10)
                 (dadd (dadd (dadd f (double_literal 61 1))
                             (dmul (dsub f (double_literal 68 1))
                                   (double_literal 12 10)))
                       (dmul (double_of_float h) (double_literal 94 1000))) in
  float_of_double
    (if isFahrenheit then hi
     else ddiv (dmul (dsub hi (double_literal 32 1)) (double_literal 5 1))
               (double_literal 9 1)).

Definition digit (n : Z) : string :=
  String (Ascii.ascii_of_nat (48 + Z.to_nat n)) EmptyString.

Fixpoint decimal_digits (fuel : nat) (n : Z) : string :=
  match fuel with
  | O => ""
  | S fuel' =>
      if n <? 10 then digit n
      else (decimal_digits fuel' (n / 10) ++ digit (n mod 10))%string
  end.

(** Fixed notation with two decimals, rounding half away from zero. *)
Definition exampleString_of_float (x : float) : string :=
  match x with
  | S754_nan => "nan"
  | S754_infinity s => if s then "-inf" else "inf"
  | S754_zero s => if s then "-0.00" else "0.00"
  | S754_finite s m e =>
      let n := if 0 <=? e then Zpos m * 2 ^ e * 100
               else (Zpos m * 200 + 2 ^ (- e)) / 2 ^ (1 - e) in
      ((if s then "-" else "")
       ++ decimal_digits (S (Z.to_nat (Z.log2 (n / 100 + 1)))) (n / 100)
       ++ "." ++ digit (n mod 100 / 10) ++ digit (n mod 10))%string
  end.

(** Environments and globals of the examples. *)
Definition connected : SetupEnv := mkSetupEnv true "192.168.1.20" "11:59:30".
Definition not_connected : SetupEnv := mkSetupEnv false "0.0.0.0" "00:00:00".
Definition env_22_5_55 (now : Z) : Env :=
  mkEnv now "12:00:00" (float_dyadic 45 (-1)) (float_dyadic 55 0).
Definition env_failed_temperature (now : Z) : Env :=
  mkEnv now "12:00:30" S754_nan (float_dyadic 55 0).

(** The globals at the end of an acquisition cycle, and the trace of the
    whole poll in which it runs. *)
Definition acquired (computeHeatIndex : float -> float -> bool -> float)
  (w : Env) (g : Globals) : Globals :=
  mkGlobals (temperature w) (humidity w)
            (computeHeatIndex (temperature w) (humidity w) false)
            (soundSpeed_spec (temperature w) (humidity w))
            (formattedTime w)
            (wrap_ulong (millis w)) (wrap_ulong (millis w)) (bRunServer g).

Definition acquisition_trace (computeHeatIndex : float -> float -> bool -> float)
  (w : Env) (g : Globals) : list Event :=
  let g1 := set_ulTime (wrap_ulong (millis w)) g in
  let g2 := set_sMeasureTime (formattedTime w) g1 in
  let g3 := set_fTmp (temperature w) g2 in
  let g4 := set_fHum (humidity w) g3 in
  let g5 := set_fHtIdx (computeHeatIndex (temperature w) (humidity w) false) g4 in
  let g6 := set_fSndSpd (soundSpeed_spec (temperature w) (humidity w)) g5 in
  let g7 := set_ulMeasureTime (wrap_ulong (millis w)) g6 in
  [ CallMillis; Store g1;
    DigitalWrite LED_BUILTIN LED_ON;
    NtpUpdate; NtpGetFormattedTime; Store g2;
    DhtReadTemperature false; Store g3;
    DhtReadHumidity; Store g4;
    DhtComputeHeatIndex (temperature w) (humidity w) false; Store g5;
    Store g6;
    Store g7;
    SerialPrint (formattedTime w); SerialPrint " - ";
    SerialPrint "Temp.  : "; SerialPrintFloat (temperature w) 1;
    SerialPrint " C";
    SerialPrint " - Humid. : "; SerialPrintFloat (humidity w) 1;
    SerialPrint " %";
    SerialPrint " - Heat Idx. : ";
    SerialPrintFloat (computeHeatIndex (temperature w) (humidity w) false) 1;
    SerialPrint " C";
    SerialPrint " - Snd.Sp.: ";
    SerialPrintFloat (soundSpeed_spec (temperature w) (humidity w)) 1;
    SerialPrint " m/s "; SerialPrintln "";
    DigitalWrite LED_BUILTIN LED_OFF;
    DelayMicroseconds 100 ].

Definition idle_trace (w : Env) (g : Globals) : list Event :=
  [ CallMillis; Store (set_ulTime (wrap_ulong (millis w)) g);
    DelayMicroseconds 100 ].

(** ** Callbacks *)

(** What the outside world answers when the WiFi manager enters its
    configuration portal. *)
Record PortalEnv := mkPortalEnv {
  softAPIP : string;          (* WiFi.softAPIP(), as printed *)
  configPortalSSID : string   (* myWiFiManager->getConfigPortalSSID() *)
}.

(** Gets called when WiFiManager enters configuration mode. *)
Definition configModeCallback (p : PortalEnv) : M unit :=
  Serial_println "Entered config mode" ;;
  Serial_print "Soft-AP IP   : " ;;
  library_call "WiFi.softAPIP" [] ;;
  Serial_println (softAPIP p) ;;
  Serial_print "Soft-AP SSID : " ;;
  library_call "myWiFiManager->getConfigPortalSSID" [] ;;
  Serial_println (configPortalSSID p) ;;
  library_call "ledTicker.attach" ["0.2"; "tickLED"].

(** [!level] as [digitalWrite] receives it. *)
Definition toggled (l : Level) : Level :=
  match l with
  | LOW => HIGH
  | HIGH => LOW
  end.

(** Blink STATUS_LED_PIN; [pinLevel] is what [digitalRead] returns. *)
Definition tickLED (pinLevel : Level) : M unit :=
  library_call "digitalRead" ["STATUS_LED_PIN"] ;;
  digitalWrite STATUS_LED_PIN (toggled pinLevel).

(** ** More readings of traces *)

(** The level of the built-in LED after a trace, from the level before:
    the level of the last [digitalWrite] to it. *)
Fixpoint led_after (l : Level) (tr : list Event) : Level :=
  match tr with
  | [] => l
  | DigitalWrite LED_BUILTIN l' :: tr' => led_after l' tr'
  | _ :: tr' => led_after l tr'
  end.

(** The paths given to [oWebServer.on], in order. *)
Fixpoint routes_registered (tr : list Event) : list string :=
  match tr with
  | [] => []
  | LibraryCall callee (path :: _) :: tr' =>
      if String.eqb callee "oWebServer.on"
      then path :: routes_registered tr'
      else routes_registered tr'
  | _ :: tr' => routes_registered tr'
  end.

Definition is_call (callee : string) (e : Event) : bool :=
  match e with
  | LibraryCall c _ => String.eqb c callee
  | _ => false
  end.

(** The library function [callee] is called somewhere in the trace. *)
Definition calls (callee : string) (tr : list Event) : bool :=
  existsb (is_call callee) tr.

(** The derived fields of a sample are those of its own temperature and
    humidity. *)
Definition derived_from_own_readings
  (computeHeatIndex : float -> float -> bool -> float) (s : Sample) : Prop :=
  heatIndexCelsius s
  = computeHeatIndex (temperatureCelsius s) (humidityPercent s) false
  /\ soundSpeedMetersPerSecond s
     = soundSpeed_spec (temperatureCelsius s) (humidityPercent s).

(** A run of a callback or of an output function that assigns no global
    variable and reads no sensor. *)
Definition read_only {A} (r : A * Globals * list Event) (g : Globals) : Prop :=
  globals r = g
  /\ snapshots (trace r) = []
  /\ sensor_reads (trace r) = 0%nat.

(** ** Sizes of floating-point numbers *)

(** [x] is zero or finite, with exponent at most [E] and magnitude below
    [2^K]. *)
Definition fin (E K : Z) (x : spec_float) : Prop :=
  match x with
  | S754_zero _ => True
  | S754_finite _ m e => e <= E /\ Zdigits2 (Zpos m) + e <= K
  | _ => False
  end.

(** [x] is zero or finite, of magnitude below [2^K].  Every finite
    binary32 number is below [2^128]. *)
Definition finite_below (K : Z) (x : spec_float) : Prop :=
  match x with
  | S754_zero _ => True
  | S754_finite _ m e => Zdigits2 (Zpos m) + e <= K
  | _ => False
  end.

(** A reading as the sensor library hands it over: not-a-number, or a
    finite binary32 number. *)
Definition reading (x : float) : Prop :=
  isnan x = true \/ finite_below emax32 x.

(** * Properties *)

(** ** One poll, by cases on the gating test *)

Section OnePoll.

Variable computeHeatIndex : float -> float -> bool -> float.

Lemma loop_idle (w : Env) (g : Globals) :
  due w g = false ->
  loop computeHeatIndex w g
  = (tt, set_ulTime (wrap_ulong (millis w)) g, idle_trace w g).
Proof.
  unfold due, elapsed. intros Hdue.
  cbv beta iota delta [loop bind call_millis emit ret assign get
                       set_ulTime ulTime ulMeasureTime bRunServer].
  destruct g as [t h hi ss mt ut umt rs]; cbv beta iota.
  cbv beta iota delta [ulMeasureTime bRunServer] in Hdue.
  rewrite Hdue. reflexivity.
Qed.

Lemma loop_fire (w : Env) (g : Globals) :
  due w g = true ->
  loop computeHeatIndex w g
  = (tt, acquired computeHeatIndex w g, acquisition_trace computeHeatIndex w g).
Proof.
  unfold due, elapsed. intros Hdue.
  cbv beta iota delta [loop bind call_millis emit ret assign get
                       set_ulTime ulTime ulMeasureTime bRunServer].
  destruct g as [t h hi ss mt ut umt rs]; cbv beta iota.
  cbv beta iota delta [ulMeasureTime bRunServer] in Hdue.
  rewrite Hdue. reflexivity.
Qed.

Lemma fires_due (w : Env) (g : Globals) :
  fires computeHeatIndex w g = due w g.
Proof.
  unfold fires. destruct (due w g) eqn:Hdue.
  - rewrite (loop_fire w g Hdue). reflexivity.
  - rewrite (loop_idle w g Hdue). reflexivity.
Qed.

Lemma due_spec (w : Env) (g : Globals) :
  due w g = true <-> bRunServer g = true /\ DHT_MEASURETIME < elapsed w g.
Proof.
  unfold due. rewrite andb_true_iff, Z.ltb_lt. tauto.
Qed.

Lemma due_false_spec (w : Env) (g : Globals) :
  due w g = false <-> bRunServer g = false \/ elapsed w g <= DHT_MEASURETIME.
Proof.
  unfold due. rewrite andb_false_iff, Z.ltb_ge. tauto.
Qed.

Lemma idle_keeps (w : Env) (g : Globals) :
  due w g = false ->
  read (globals (loop computeHeatIndex w g)) = read g
  /\ ulMeasureTime (globals (loop computeHeatIndex w g)) = ulMeasureTime g
  /\ bRunServer (globals (loop computeHeatIndex w g)) = bRunServer g
  /\ sensor_reads (trace (loop computeHeatIndex w g)) = 0%nat
  /\ snapshots (trace (loop computeHeatIndex w g))
     = [set_ulTime (wrap_ulong (millis w)) g].
Proof.
  intros Hdue. rewrite (loop_idle w g Hdue). repeat split.
Qed.

End OnePoll.

(** ** [setup] *)

Lemma after_setup_eq (e : SetupEnv) :
  after_setup e = set_bRunServer (autoConnect e) startup.
Proof.
  unfold after_setup. destruct e as [[|] ip t]; reflexivity.
Qed.

Lemma setup_reads_no_sensor (e : SetupEnv) :
  sensor_reads (trace (setup e startup)) = 0%nat.
Proof.
  destruct e as [[|] ip t]; reflexivity.
Qed.

(** ** The arithmetic on concrete numbers *)

(** The three literals of the sound-speed expression, as binary64. *)
Example literal_331_4 :
  double_literal 3314 10 = S754_finite false 5830050455119462 (-44).
Proof. vm_compute. reflexivity. Qed.

Example literal_0_606 :
  double_literal 606 1000 = S754_finite false 5458362748373041 (-53).
Proof. vm_compute. reflexivity. Qed.

Example literal_0_0124 :
  double_literal 124 10000 = S754_finite false 7148113328562451 (-59).
Proof. vm_compute. reflexivity. Qed.

(** Each is within half a unit in the last place of its decimal. *)
Example literals_nearest :
  (Qabs (to_Q (double_literal 3314 10) - (3314 # 10)) <= Qpower 2 (-45))%Q
  /\ (Qabs (to_Q (double_literal 606 1000) - (606 # 1000)) <= Qpower 2 (-54))%Q
  /\ (Qabs (to_Q (double_literal 124 10000) - (124 # 10000)) <= Qpower 2 (-60))%Q.
Proof. repeat split; vm_compute; discriminate. Qed.

Example sound_speed_22_5_55 :
  soundSpeed_spec (float_dyadic 45 (-1)) (float_dyadic 55 0)
  = S754_finite false 11328455 (-15).
Proof. vm_compute. reflexivity. Qed.

(** With the example rendering, the temperature route shows the zero the
    variable starts with, and the reading after a cycle. *)
Example temperature_route_at_startup :
  value (outputTemperature exampleString_of_float (after_setup connected))
  = "0.00".
Proof. vm_compute. reflexivity. Qed.

Example temperature_route_after_cycle :
  value (outputTemperature exampleString_of_float
           (globals (loop exampleHeatIndex (env_22_5_55 30001)
                          (after_setup connected))))
  = "22.50".
Proof. vm_compute. reflexivity. Qed.

(** ** Unsigned subtraction across the wrap *)

(** If [d] milliseconds, fewer than [2^32], have passed since the counter
    showed [last], the unsigned difference is [d], whether or not the
    counter has wrapped in between. *)
Lemma ulong_sub_wrap_safe (last d : Z) :
  0 <= d < 2 ^ ULONG_WIDTH ->
  ulong_sub (wrap_ulong (last + d)) last = d.
Proof.
  intros Hd. unfold ulong_sub, wrap_ulong.
  rewrite Zminus_mod_idemp_l.
  replace (last + d - last) with d by ring.
  apply Z.mod_small. exact Hd.
Qed.

(** ** Traces of several polls *)

Lemma snapshots_app (t1 t2 : list Event) :
  snapshots (t1 ++ t2) = snapshots t1 ++ snapshots t2.
Proof.
  induction t1 as [|e t1 IH]; simpl; [reflexivity|].
  destruct e; simpl; rewrite ?IH; reflexivity.
Qed.

Lemma sensor_reads_app (t1 t2 : list Event) :
  sensor_reads (t1 ++ t2) = (sensor_reads t1 + sensor_reads t2)%nat.
Proof.
  unfold sensor_reads. rewrite filter_app, length_app. reflexivity.
Qed.

Lemma run_cons (chi : float -> float -> bool -> float)
  (w : Env) (ws : list Env) (g : Globals) :
  globals (run chi (w :: ws) g) = globals (run chi ws (globals (loop chi w g)))
  /\ trace (run chi (w :: ws) g)
     = trace (loop chi w g) ++ trace (run chi ws (globals (loop chi w g))).
Proof.
  unfold globals, trace. simpl. unfold bind.
  destruct (loop chi w g) as [[u g1] t1]. simpl.
  destruct (run chi ws g1) as [[u2 g2] t2]. split; reflexivity.
Qed.

Section ManyPolls.

Variable computeHeatIndex : float -> float -> bool -> float.

(** With the server flag off, nothing but [ulTime] ever changes. *)
Lemma run_server_off (ws : list Env) : forall g : Globals,
  bRunServer g = false ->
  sensor_reads (trace (run computeHeatIndex ws g)) = 0%nat
  /\ read (globals (run computeHeatIndex ws g)) = read g
  /\ ulMeasureTime (globals (run computeHeatIndex ws g)) = ulMeasureTime g
  /\ bRunServer (globals (run computeHeatIndex ws g)) = false
  /\ Forall (fun s => read s = read g /\ ulMeasureTime s = ulMeasureTime g)
            (snapshots (trace (run computeHeatIndex ws g))).
Proof.
  induction ws as [|w ws IH]; intros g Hoff.
  - simpl. repeat split; auto.
  - destruct (run_cons computeHeatIndex w ws g) as [Hg Ht].
    assert (Hdue : due w g = false) by (apply due_false_spec; auto).
    destruct (idle_keeps computeHeatIndex w g Hdue)
      as (Hread & Hlast & Hflag & Hreads & Hsnap).
    destruct (IH (globals (loop computeHeatIndex w g))) as (R1 & R2 & R3 & R4 & R5).
    { rewrite Hflag. exact Hoff. }
    rewrite Hg, Ht, sensor_reads_app, snapshots_app, Hreads, R1, R2, R3, R4, Hsnap.
    repeat split; auto.
    apply Forall_app. split.
    + constructor; [|constructor]. split; reflexivity.
    + rewrite Hread, Hlast in R5. exact R5.
Qed.

(** As long as no sensor read has occurred, the sample is the one the
    polls started with. *)
Lemma run_without_reads (ws : list Env) : forall g : Globals,
  sensor_reads (trace (run computeHeatIndex ws g)) = 0%nat ->
  read (globals (run computeHeatIndex ws g)) = read g.
Proof.
  induction ws as [|w ws IH]; intros g Hnone.
  - reflexivity.
  - destruct (run_cons computeHeatIndex w ws g) as [Hg Ht].
    rewrite Ht, sensor_reads_app in Hnone. rewrite Hg.
    destruct (due w g) eqn:Hdue.
    + rewrite (loop_fire computeHeatIndex w g Hdue) in Hnone.
      simpl in Hnone. discriminate.
    + destruct (idle_keeps computeHeatIndex w g Hdue) as (Hread & _).
      rewrite IH; [exact Hread | lia].
Qed.

End ManyPolls.

(** ** The sample before the first acquisition *)

(** C1, as stated: at startup the four numeric fields of the stored sample
    are not-a-number and the timestamp is empty.  This fails: the variables
    have static storage and no initialiser, so they start as zero. *)
Lemma C1_startup_sample_is_not_nan :
  ~ (isnan (temperatureCelsius (read (after_setup connected))) = true
     /\ isnan (humidityPercent (read (after_setup connected))) = true
     /\ isnan (heatIndexCelsius (read (after_setup connected))) = true
     /\ isnan (soundSpeedMetersPerSecond (read (after_setup connected))) = true
     /\ formattedTimestamp (read (after_setup connected)) = "").
Proof.
  intros (Htemperature & _). vm_compute in Htemperature. discriminate.
Qed.

(** C1, amended: after [setup], and after any number of polls in which no
    sensor read has taken place, the four numeric fields of the stored
    sample are all zero (none is not-a-number) and the timestamp is the
    empty string. *)
Theorem C1_startup_sample_is_zero
  (computeHeatIndex : float -> float -> bool -> float)
  (e : SetupEnv) (ws : list Env) :
  sensor_reads (trace (run computeHeatIndex ws (after_setup e))) = 0%nat ->
  read (globals (run computeHeatIndex ws (after_setup e)))
  = mkSample (S754_zero false) (S754_zero false) (S754_zero false)
             (S754_zero false) "".
Proof.
  intros Hnone.
  rewrite (run_without_reads computeHeatIndex ws _ Hnone).
  rewrite after_setup_eq. reflexivity.
Qed.

Lemma C1_startup_sample_is_zero_witness :
  sensor_reads (trace (run exampleHeatIndex
                           [env_22_5_55 100; env_22_5_55 30000]
                           (after_setup connected))) = 0%nat
  /\ read (globals (run exampleHeatIndex
                        [env_22_5_55 100; env_22_5_55 30000]
                        (after_setup connected)))
     = mkSample (S754_zero false) (S754_zero false) (S754_zero false)
                (S754_zero false) "".
Proof.
  split.
  - vm_compute. reflexivity.
  - apply (C1_startup_sample_is_zero exampleHeatIndex connected
             [env_22_5_55 100; env_22_5_55 30000]).
    vm_compute. reflexivity.
Defined.

(** ** The gating test *)

(** C2: with the server flag on, a poll runs an acquisition cycle exactly
    when the unsigned difference [millis() - ulMeasureTime] is strictly
    greater than [DHT_MEASURETIME]; when it is less or equal, no cycle runs
    and the stored sample and [ulMeasureTime] stay as they were. *)
Theorem C2_acquisition_iff_elapsed_exceeds_interval
  (computeHeatIndex : float -> float -> bool -> float)
  (w : Env) (g : Globals) :
  bRunServer g = true ->
  (fires computeHeatIndex w g = true
   <-> DHT_MEASURETIME < ulong_sub (wrap_ulong (millis w)) (ulMeasureTime g))
  /\ (ulong_sub (wrap_ulong (millis w)) (ulMeasureTime g) <= DHT_MEASURETIME ->
      fires computeHeatIndex w g = false
      /\ read (globals (loop computeHeatIndex w g)) = read g
      /\ ulMeasureTime (globals (loop computeHeatIndex w g)) = ulMeasureTime g).
Proof.
  intros Hon. fold (elapsed w g). rewrite fires_due. split.
  - rewrite due_spec. tauto.
  - intros Hle.
    assert (Hdue : due w g = false) by (apply due_false_spec; auto).
    destruct (idle_keeps computeHeatIndex w g Hdue) as (Hread & Hlast & _).
    auto.
Qed.

Lemma C2_acquisition_iff_elapsed_exceeds_interval_witness :
  bRunServer (after_setup connected) = true
  /\ (fires exampleHeatIndex (env_22_5_55 30001) (after_setup connected) = true
      <-> DHT_MEASURETIME
          < ulong_sub (wrap_ulong (millis (env_22_5_55 30001)))
                      (ulMeasureTime (after_setup connected))).
Proof.
  split.
  - reflexivity.
  - apply (C2_acquisition_iff_elapsed_exceeds_interval
             exampleHeatIndex (env_22_5_55 30001) (after_setup connected)).
    reflexivity.
Defined.

(** C3: with the server flag off, no poll ever runs an acquisition cycle,
    however much time has passed: over any sequence of polls there is no
    sensor read, every content the globals go through has the sample and
    [ulMeasureTime] they started with, and the flag stays off. *)
Theorem C3_no_acquisition_while_server_off
  (computeHeatIndex : float -> float -> bool -> float)
  (ws : list Env) (g : Globals) :
  bRunServer g = false ->
  sensor_reads (trace (run computeHeatIndex ws g)) = 0%nat
  /\ Forall (fun w => fires computeHeatIndex w g = false) ws
  /\ read (globals (run computeHeatIndex ws g)) = read g
  /\ ulMeasureTime (globals (run computeHeatIndex ws g)) = ulMeasureTime g
  /\ bRunServer (globals (run computeHeatIndex ws g)) = false
  /\ Forall (fun s => read s = read g /\ ulMeasureTime s = ulMeasureTime g)
            (snapshots (trace (run computeHeatIndex ws g))).
Proof.
  intros Hoff.
  destruct (run_server_off computeHeatIndex ws g Hoff) as (R1 & R2 & R3 & R4 & R5).
  repeat split; auto.
  apply Forall_forall. intros w _. rewrite fires_due.
  apply due_false_spec. auto.
Qed.

Lemma C3_no_acquisition_while_server_off_witness :
  bRunServer (after_setup not_connected) = false
  /\ sensor_reads
       (trace (run exampleHeatIndex
                   [env_22_5_55 300000; env_22_5_55 600000]
                   (after_setup not_connected))) = 0%nat.
Proof.
  split.
  - reflexivity.
  - apply (C3_no_acquisition_while_server_off exampleHeatIndex
             [env_22_5_55 300000; env_22_5_55 600000] (after_setup not_connected)).
    reflexivity.
Defined.

(** ** Wraparound of the millisecond counter *)

(** C4, as stated: with [ulMeasureTime = ULONG_MAX - 5] and [millis() = 10]
    the unsigned difference is 15 and no acquisition runs.  The difference
    is not 15. *)
Lemma C4_wraparound_elapsed_is_not_15 :
  ~ (ulong_sub (wrap_ulong (millis (env_22_5_55 10)))
               (ulMeasureTime (set_ulMeasureTime (ULONG_MAX - 5) (after_setup connected)))
     = 15
     /\ fires exampleHeatIndex (env_22_5_55 10)
              (set_ulMeasureTime (ULONG_MAX - 5) (after_setup connected)) = false).
Proof.
  intros (Hfifteen & _). vm_compute in Hfifteen. discriminate.
Qed.

(** C4, amended: with [ulMeasureTime = ULONG_MAX - 5] and [millis() = 10]
    the unsigned difference is 16 (six steps up to the wrap to 0, ten
    after it); 16 is not greater than [DHT_MEASURETIME = 30000], so no
    acquisition runs on that poll and the sample and [ulMeasureTime] are
    unchanged. *)
Theorem C4_wraparound_elapsed_is_16
  (computeHeatIndex : float -> float -> bool -> float)
  (w : Env) (g : Globals) :
  millis w = 10 ->
  ulMeasureTime g = ULONG_MAX - 5 ->
  ulong_sub (wrap_ulong (millis w)) (ulMeasureTime g) = 16
  /\ DHT_MEASURETIME = 30000
  /\ fires computeHeatIndex w g = false
  /\ read (globals (loop computeHeatIndex w g)) = read g
  /\ ulMeasureTime (globals (loop computeHeatIndex w g)) = ULONG_MAX - 5.
Proof.
  intros Hnow Hlast.
  assert (Helapsed : elapsed w g = 16).
  { unfold elapsed. rewrite Hnow, Hlast. reflexivity. }
  assert (Hdue : due w g = false).
  { apply due_false_spec. right. rewrite Helapsed. unfold DHT_MEASURETIME. lia. }
  destruct (idle_keeps computeHeatIndex w g Hdue) as (Hread & Hkeep & _).
  rewrite fires_due, Hkeep. repeat split; auto.
Qed.

Lemma C4_wraparound_elapsed_is_16_witness :
  millis (env_22_5_55 10) = 10
  /\ ulMeasureTime (set_ulMeasureTime (ULONG_MAX - 5) (after_setup connected))
     = ULONG_MAX - 5
  /\ ulong_sub (wrap_ulong (millis (env_22_5_55 10)))
               (ulMeasureTime (set_ulMeasureTime (ULONG_MAX - 5) (after_setup connected)))
     = 16.
Proof.
  split; [reflexivity | split; [reflexivity |]].
  apply (C4_wraparound_elapsed_is_16 exampleHeatIndex (env_22_5_55 10)
           (set_ulMeasureTime (ULONG_MAX - 5) (after_setup connected)));
    reflexivity.
Defined.

(** ** Not-a-number through the derived values *)

Create HintDb nan.

Lemma isnan_eq (x : spec_float) : isnan x = true -> x = S754_nan.
Proof. destruct x; simpl; congruence. Qed.

Lemma round_to_nan (prec emax : Z) (x : spec_float) :
  isnan x = true -> isnan (round_to prec emax x) = true.
Proof. intros H. rewrite (isnan_eq x H). reflexivity. Qed.

Lemma SFadd_nan_l (prec emax : Z) (x y : spec_float) :
  isnan x = true -> isnan (SFadd prec emax x y) = true.
Proof. intros H. rewrite (isnan_eq x H). reflexivity. Qed.

Lemma SFadd_nan_r (prec emax : Z) (x y : spec_float) :
  isnan y = true -> isnan (SFadd prec emax x y) = true.
Proof. intros H. rewrite (isnan_eq y H). destruct x; reflexivity. Qed.

Lemma SFsub_nan_l (prec emax : Z) (x y : spec_float) :
  isnan x = true -> isnan (SFsub prec emax x y) = true.
Proof. intros H. rewrite (isnan_eq x H). reflexivity. Qed.

Lemma SFmul_nan_l (prec emax : Z) (x y : spec_float) :
  isnan x = true -> isnan (SFmul prec emax x y) = true.
Proof. intros H. rewrite (isnan_eq x H). reflexivity. Qed.

Lemma SFmul_nan_r (prec emax : Z) (x y : spec_float) :
  isnan y = true -> isnan (SFmul prec emax x y) = true.
Proof. intros H. rewrite (isnan_eq y H). destruct x; reflexivity. Qed.

Lemma SFdiv_nan_l (prec emax : Z) (x y : spec_float) :
  isnan x = true -> isnan (SFdiv prec emax x y) = true.
Proof. intros H. rewrite (isnan_eq x H). reflexivity. Qed.

#[local] Hint Resolve round_to_nan SFadd_nan_l SFadd_nan_r SFsub_nan_l
  SFmul_nan_l SFmul_nan_r SFdiv_nan_l : nan.

Lemma soundSpeed_spec_nan_temperature (t h : float) :
  isnan t = true -> isnan (soundSpeed_spec t h) = true.
Proof.
  intros H. unfold soundSpeed_spec, float_of_double, double_of_float, dadd, dmul.
  auto 6 with nan.
Qed.

Lemma soundSpeed_spec_nan_humidity (t h : float) :
  isnan h = true -> isnan (soundSpeed_spec t h) = true.
Proof.
  intros H. unfold soundSpeed_spec, float_of_double, double_of_float, dadd, dmul.
  auto 6 with nan.
Qed.

Lemma exampleHeatIndex_propagates_nan : propagates_nan exampleHeatIndex.
Proof.
  intros t h isF H. apply orb_true_iff in H.
  unfold exampleHeatIndex, float_of_double, double_of_float, dadd, dmul.
  destruct H as [H | H]; destruct isF; auto 12 with nan.
Qed.

(** C5: in every acquisition cycle whose temperature reading is
    not-a-number, the heat index and the sound speed of the stored sample
    are not-a-number, whatever the humidity reading.  The sound speed is
    the arithmetic of [loop]; the heat index is what the sensor library
    returns, under the specification's statement about it. *)
Theorem C5_nan_temperature_gives_nan_derived_values
  (computeHeatIndex : float -> float -> bool -> float)
  (w : Env) (g : Globals) :
  propagates_nan computeHeatIndex ->
  fires computeHeatIndex w g = true ->
  isnan (temperature w) = true ->
  isnan (temperatureCelsius (read (globals (loop computeHeatIndex w g)))) = true
  /\ isnan (heatIndexCelsius (read (globals (loop computeHeatIndex w g)))) = true
  /\ isnan (soundSpeedMetersPerSecond
              (read (globals (loop computeHeatIndex w g)))) = true.
Proof.
  intros Hlib Hfires Hnan. rewrite fires_due in Hfires.
  rewrite (loop_fire computeHeatIndex w g Hfires). simpl.
  repeat split.
  - exact Hnan.
  - apply Hlib. rewrite Hnan. reflexivity.
  - apply soundSpeed_spec_nan_temperature. exact Hnan.
Qed.

Lemma C5_nan_temperature_gives_nan_derived_values_witness :
  propagates_nan exampleHeatIndex
  /\ fires exampleHeatIndex (env_failed_temperature 30001) (after_setup connected) = true
  /\ isnan (temperature (env_failed_temperature 30001)) = true
  /\ isnan (soundSpeedMetersPerSecond
              (read (globals (loop exampleHeatIndex (env_failed_temperature 30001)
                                   (after_setup connected))))) = true.
Proof.
  split; [exact exampleHeatIndex_propagates_nan |].
  split; [reflexivity |]. split; [reflexivity |].
  apply (C5_nan_temperature_gives_nan_derived_values exampleHeatIndex
           (env_failed_temperature 30001) (after_setup connected)).
  - exact exampleHeatIndex_propagates_nan.
  - reflexivity.
  - reflexivity.
Defined.

(** ** The sound speed *)

(** C6: the sound speed an acquisition cycle stores is
    [331.4 + 0.606 * temperature + 0.0124 * humidity] of that cycle's
    readings; for the readings 22.5 and 55.0 it is within 0.01 of 345.717;
    and two cycles with the same readings, whatever the time and the
    previous contents of the globals, store the same heat index and the
    same sound speed. *)
Theorem C6_sound_speed_formula
  (computeHeatIndex : float -> float -> bool -> float)
  (w w' : Env) (g g' : Globals) :
  fires computeHeatIndex w g = true ->
  fires computeHeatIndex w' g' = true ->
  temperature w' = temperature w ->
  humidity w' = humidity w ->
  fSndSpd (globals (loop computeHeatIndex w g))
  = soundSpeed_spec (temperature w) (humidity w)
  /\ (temperature w = float_dyadic 45 (-1) ->
      humidity w = float_dyadic 55 0 ->
      (Qabs (to_Q (fSndSpd (globals (loop computeHeatIndex w g)))
             - (345717 # 1000))%Q
       <= 1 # 100)%Q)
  /\ fHtIdx (globals (loop computeHeatIndex w' g'))
     = fHtIdx (globals (loop computeHeatIndex w g))
  /\ fSndSpd (globals (loop computeHeatIndex w' g'))
     = fSndSpd (globals (loop computeHeatIndex w g)).
Proof.
  intros Hfires Hfires' Ht Hh. rewrite fires_due in Hfires, Hfires'.
  rewrite (loop_fire computeHeatIndex w g Hfires).
  rewrite (loop_fire computeHeatIndex w' g' Hfires').
  cbv beta iota delta [globals fst snd acquired fSndSpd fHtIdx].
  rewrite Ht, Hh. repeat split.
  intros H22 H55. rewrite H22, H55. vm_compute. discriminate.
Qed.

Lemma C6_sound_speed_formula_witness :
  fires exampleHeatIndex (env_22_5_55 30001) (after_setup connected) = true
  /\ fires exampleHeatIndex (env_22_5_55 90000)
           (globals (loop exampleHeatIndex (env_failed_temperature 30001)
                          (after_setup connected))) = true
  /\ (Qabs (to_Q (fSndSpd (globals (loop exampleHeatIndex (env_22_5_55 30001)
                                         (after_setup connected))))
            - (345717 # 1000))%Q
      <= 1 # 100)%Q.
Proof.
  split; [reflexivity |]. split; [reflexivity |].
  apply (C6_sound_speed_formula exampleHeatIndex
           (env_22_5_55 30001) (env_22_5_55 90000)
           (after_setup connected)
           (globals (loop exampleHeatIndex (env_failed_temperature 30001)
                          (after_setup connected))));
    reflexivity.
Defined.

(** ** What the web routes render *)

(** C7: [outputTemperature] gives the text "N/A" when the stored
    temperature is not-a-number and [String(fTmp)] otherwise, and
    [outputHumidity] does the same with the humidity; neither changes the
    globals.  After an acquisition cycle in which a reading failed the
    route shows "N/A": no number stands in for the failed reading. *)
Theorem C7_outputs_render_value_or_NA
  (String_of_float : float -> string)
  (computeHeatIndex : float -> float -> bool -> float)
  (w : Env) (g : Globals) :
  value (outputTemperature String_of_float g)
  = (if isnan (fTmp g) then "N/A" else String_of_float (fTmp g))
  /\ value (outputHumidity String_of_float g)
     = (if isnan (fHum g) then "N/A" else String_of_float (fHum g))
  /\ globals (outputTemperature String_of_float g) = g
  /\ globals (outputHumidity String_of_float g) = g
  /\ (fires computeHeatIndex w g = true ->
      isnan (temperature w) = true ->
      value (outputTemperature String_of_float
               (globals (loop computeHeatIndex w g))) = "N/A")
  /\ (fires computeHeatIndex w g = true ->
      isnan (humidity w) = true ->
      value (outputHumidity String_of_float
               (globals (loop computeHeatIndex w g))) = "N/A").
Proof.
  unfold outputTemperature, outputHumidity, bind, get, ret, Serial_println,
    emit, value, globals.
  repeat split.
  - destruct (isnan (fTmp g)); reflexivity.
  - destruct (isnan (fHum g)); reflexivity.
  - destruct (isnan (fTmp g)); reflexivity.
  - destruct (isnan (fHum g)); reflexivity.
  - intros Hfires Hnan. rewrite fires_due in Hfires.
    rewrite (loop_fire computeHeatIndex w g Hfires). simpl.
    rewrite Hnan. reflexivity.
  - intros Hfires Hnan. rewrite fires_due in Hfires.
    rewrite (loop_fire computeHeatIndex w g Hfires). simpl.
    rewrite Hnan. reflexivity.
Qed.

Lemma C7_outputs_render_value_or_NA_witness :
  fires exampleHeatIndex (env_failed_temperature 30001) (after_setup connected) = true
  /\ isnan (temperature (env_failed_temperature 30001)) = true
  /\ value (outputTemperature exampleString_of_float
              (globals (loop exampleHeatIndex (env_failed_temperature 30001)
                             (after_setup connected)))) = "N/A".
Proof.
  split; [reflexivity |]. split; [reflexivity |].
  apply (C7_outputs_render_value_or_NA exampleString_of_float exampleHeatIndex
           (env_failed_temperature 30001) (after_setup connected));
    reflexivity.
Defined.

(** C10: for a placeholder that is none of "TEMPERATURE", "HUMIDITY",
    "MEASURETIME" and "REFRESHTIME", [processOutput] returns the empty
    string, calls nothing and leaves the globals as they are. *)
Theorem C10_unknown_placeholder_gives_empty_string
  (String_of_float : float -> string) (w : Env) (var : string) (g : Globals) :
  var <> "TEMPERATURE" ->
  var <> "HUMIDITY" ->
  var <> "MEASURETIME" ->
  var <> "REFRESHTIME" ->
  processOutput String_of_float w var g = ("", g, []).
Proof.
  intros Ht Hh Hm Hr. unfold processOutput.
  apply String.eqb_neq in Ht, Hh, Hm, Hr.
  rewrite Ht, Hh, Hm, Hr. reflexivity.
Qed.

Lemma C10_unknown_placeholder_gives_empty_string_witness :
  "PRESSURE" <> "TEMPERATURE"
  /\ "PRESSURE" <> "HUMIDITY"
  /\ "PRESSURE" <> "MEASURETIME"
  /\ "PRESSURE" <> "REFRESHTIME"
  /\ processOutput exampleString_of_float (env_22_5_55 100) "PRESSURE"
                   (after_setup connected)
     = ("", after_setup connected, []).
Proof.
  repeat (split; [discriminate |]).
  apply (C10_unknown_placeholder_gives_empty_string exampleString_of_float
           (env_22_5_55 100) "PRESSURE" (after_setup connected));
    discriminate.
Defined.

(** ** The order of an acquisition cycle *)

(** C8, as stated: in every acquisition cycle the sensor is read before the
    time source is asked.  In [loop] the time source comes first. *)
Lemma C8_spec_order_fails :
  ~ (forall (computeHeatIndex : float -> float -> bool -> float)
            (w : Env) (g : Globals),
        fires computeHeatIndex w g = true ->
        spec_order (trace (loop computeHeatIndex w g)) = true).
Proof.
  intros Hspec.
  specialize (Hspec exampleHeatIndex (env_22_5_55 30001) (after_setup connected)
                    eq_refl).
  vm_compute in Hspec. discriminate.
Qed.

(** C8, amended: a poll that runs an acquisition cycle does, in this
    order: LED on; [clientNTP.update()], then
    [clientNTP.getFormattedTime()], once each, the time stored in
    [sMeasureTime]; then the temperature read and stored, then the humidity
    read and stored; then the heat index computed from both and stored; the
    sound speed stored; [ulMeasureTime] set to the [millis()] value of the
    gating test; the serial log; LED off.  The five sample variables then
    all come from this cycle. *)
Theorem C8_acquisition_cycle_order
  (computeHeatIndex : float -> float -> bool -> float)
  (w : Env) (g : Globals) :
  fires computeHeatIndex w g = true ->
  trace (loop computeHeatIndex w g) = acquisition_trace computeHeatIndex w g
  /\ code_order (trace (loop computeHeatIndex w g)) = true
  /\ spec_order (trace (loop computeHeatIndex w g)) = false
  /\ sensor_reads (trace (loop computeHeatIndex w g)) = 2%nat
  /\ read (globals (loop computeHeatIndex w g))
     = mkSample (temperature w) (humidity w)
                (computeHeatIndex (temperature w) (humidity w) false)
                (soundSpeed_spec (temperature w) (humidity w))
                (formattedTime w)
  /\ ulMeasureTime (globals (loop computeHeatIndex w g)) = wrap_ulong (millis w)
  /\ ulTime (globals (loop computeHeatIndex w g)) = wrap_ulong (millis w).
Proof.
  intros Hfires. rewrite fires_due in Hfires.
  rewrite (loop_fire computeHeatIndex w g Hfires).
  repeat split.
Qed.

Lemma C8_acquisition_cycle_order_witness :
  fires exampleHeatIndex (env_22_5_55 30001) (after_setup connected) = true
  /\ code_order (trace (loop exampleHeatIndex (env_22_5_55 30001)
                             (after_setup connected))) = true.
Proof.
  split; [reflexivity |].
  apply (C8_acquisition_cycle_order exampleHeatIndex (env_22_5_55 30001)
           (after_setup connected)).
  reflexivity.
Defined.

(** ** What the globals go through during a poll *)

(** C9, as stated: whatever content the sample variables have at any moment
    of a poll is either the previous complete sample or the new complete
    one.  In [loop] the variables are assigned one after the other, so
    there are contents in between. *)
Lemma C9_partial_sample_in_store :
  ~ (forall (computeHeatIndex : float -> float -> bool -> float)
            (w : Env) (g s : Globals),
        In s (snapshots (trace (loop computeHeatIndex w g))) ->
        read s = read g \/ read s = read (globals (loop computeHeatIndex w g))).
Proof.
  intros Hatomic.
  destruct (Hatomic exampleHeatIndex (env_22_5_55 30001) (after_setup connected)
              (set_fTmp (float_dyadic 45 (-1))
                 (set_sMeasureTime "12:00:00"
                    (set_ulTime 30001 (after_setup connected)))))
    as [Hold | Hnew].
  - vm_compute. right. right. left. reflexivity.
  - vm_compute in Hold. discriminate.
  - vm_compute in Hnew. discriminate.
Qed.

(** C9, amended: at the end of a poll the stored sample is either the
    previous complete sample or the complete sample of this poll's
    readings.  During an acquisition cycle the five variables are assigned
    one at a time, in the order timestamp, temperature, humidity, heat
    index, sound speed: every content in between has the first [k] of them
    new and the others old. *)
Theorem C9_sample_whole_between_polls
  (computeHeatIndex : float -> float -> bool -> float)
  (w : Env) (g : Globals) :
  (read (globals (loop computeHeatIndex w g)) = read g
   \/ read (globals (loop computeHeatIndex w g))
      = mkSample (temperature w) (humidity w)
                 (computeHeatIndex (temperature w) (humidity w) false)
                 (soundSpeed_spec (temperature w) (humidity w))
                 (formattedTime w))
  /\ Forall (fun s => exists k : nat,
                 (k <= 5)%nat
                 /\ read s = mixed k (read g)
                                   (read (globals (loop computeHeatIndex w g))))
            (snapshots (trace (loop computeHeatIndex w g))).
Proof.
  destruct (due w g) eqn:Hdue.
  - rewrite (loop_fire computeHeatIndex w g Hdue). split.
    + right. reflexivity.
    + destruct g as [t h hi ss mt ut umt rs].
      repeat constructor.
      * exists 0%nat. split; [lia | reflexivity].
      * exists 1%nat. split; [lia | reflexivity].
      * exists 2%nat. split; [lia | reflexivity].
      * exists 3%nat. split; [lia | reflexivity].
      * exists 4%nat. split; [lia | reflexivity].
      * exists 5%nat. split; [lia | reflexivity].
      * exists 5%nat. split; [lia | reflexivity].
  - rewrite (loop_idle computeHeatIndex w g Hdue). split.
    + left. reflexivity.
    + destruct g as [t h hi ss mt ut umt rs].
      repeat constructor.
      exists 0%nat. split; [lia | reflexivity].
Qed.

(** * Further properties *)

(** ** Size of the results of the floating-point operations

    Bounds on the exponent and on the number of digits of what
    [binary_round_aux] returns, and from them on sums and products: enough
    to tell when an operation can neither overflow nor give not-a-number. *)

Lemma digits2_pos_size (p : positive) : digits2_pos p = Pos.size p.
Proof. induction p; simpl; congruence. Qed.

Lemma Zdigits2_log2 (p : positive) : Zdigits2 (Zpos p) = Z.log2 (Zpos p) + 1.
Proof.
  simpl Zdigits2. rewrite digits2_pos_size.
  destruct p; simpl; rewrite ?Pos2Z.inj_succ; lia.
Qed.

Lemma Zdigits2_nonneg (z : Z) : 0 <= Zdigits2 z.
Proof. destruct z; simpl; lia. Qed.

Lemma Zdigits2_le_iff (z k : Z) : 0 <= z -> 0 <= k -> (Zdigits2 z <= k <-> z < 2 ^ k).
Proof.
  intros Hz Hk. destruct z as [|p|p]; try lia.
  - simpl. split; intros _; [apply Z.pow_pos_nonneg; lia | lia].
  - rewrite Zdigits2_log2.
    destruct (Z.eq_dec k 0) as [->|Hk0].
    + pose proof (Z.log2_nonneg (Zpos p)). simpl (2 ^ 0). lia.
    + rewrite (Z.log2_lt_pow2 (Zpos p) k) by lia. lia.
Qed.

Lemma Zdigits2_succ_le (z : Z) : 0 <= z -> Zdigits2 (z + 1) <= Zdigits2 z + 1.
Proof.
  intros Hz. apply Zdigits2_le_iff; try lia.
  - pose proof (Zdigits2_nonneg z). lia.
  - assert (z < 2 ^ Zdigits2 z)
      by (apply Zdigits2_le_iff; [lia | apply Zdigits2_nonneg | lia]).
    rewrite Z.pow_add_r by (try apply Zdigits2_nonneg; lia). simpl (2 ^ 1). lia.
Qed.

Lemma Zdigits2_mul (a b : positive) :
  Zdigits2 (Zpos (a * b)) <= Zdigits2 (Zpos a) + Zdigits2 (Zpos b).
Proof.
  rewrite !Zdigits2_log2, Pos2Z.inj_mul.
  pose proof (Z.log2_mul_above (Zpos a) (Zpos b)). lia.
Qed.

Lemma Zdigits2_abs (z : Z) : Zdigits2 (Z.abs z) = Zdigits2 z.
Proof. destruct z; reflexivity. Qed.

Lemma Zdigits2_add (a b : Z) :
  Zdigits2 (a + b) <= Z.max (Zdigits2 a) (Zdigits2 b) + 1.
Proof.
  rewrite <- (Zdigits2_abs (a + b)), <- (Zdigits2_abs a), <- (Zdigits2_abs b).
  pose proof (Zdigits2_nonneg (Z.abs a)) as Ha.
  pose proof (Zdigits2_nonneg (Z.abs b)) as Hb.
  apply Zdigits2_le_iff; try lia.
  assert (Z.abs a < 2 ^ Zdigits2 (Z.abs a))
    by (apply Zdigits2_le_iff; lia).
  assert (Z.abs b < 2 ^ Zdigits2 (Z.abs b))
    by (apply Zdigits2_le_iff; lia).
  set (k := Z.max (Zdigits2 (Z.abs a)) (Zdigits2 (Z.abs b))) in *.
  assert (2 ^ Zdigits2 (Z.abs a) <= 2 ^ k) by (apply Z.pow_le_mono_r; lia).
  assert (2 ^ Zdigits2 (Z.abs b) <= 2 ^ k) by (apply Z.pow_le_mono_r; lia).
  rewrite Z.pow_add_r by lia. simpl (2 ^ 1). lia.
Qed.

Lemma digits2_pos_iter_xO (m d : positive) :
  digits2_pos (Pos.iter xO m d) = (digits2_pos m + d)%positive.
Proof.
  induction d as [|d IH] using Pos.peano_ind.
  - simpl. rewrite Pos.add_1_r. reflexivity.
  - rewrite Pos.iter_succ. simpl. rewrite IH, Pos.add_succ_r. reflexivity.
Qed.

Lemma shr_m_of_loc (m : Z) (l : location) : shr_m (shr_record_of_loc m l) = m.
Proof. destruct l as [|[| |]]; reflexivity. Qed.

Lemma shr_1_digits (mrs : shr_record) :
  0 <= shr_m mrs ->
  0 <= shr_m (shr_1 mrs)
  /\ Zdigits2 (shr_m (shr_1 mrs)) = Z.max (Zdigits2 (shr_m mrs) - 1) 0.
Proof.
  destruct mrs as [m r s]. destruct m as [|[p|p|]|p];
    cbn [shr_1 shr_m Zdigits2 digits2_pos]; intros H;
    rewrite ?Pos2Z.inj_succ; lia.
Qed.

Lemma iter_shr_1_digits (p : positive) : forall mrs : shr_record,
  0 <= shr_m mrs ->
  0 <= shr_m (iter_pos shr_1 p mrs)
  /\ Zdigits2 (shr_m (iter_pos shr_1 p mrs))
     = Z.max (Zdigits2 (shr_m mrs) - Zpos p) 0.
Proof.
  induction p as [p IH|p IH|]; intros mrs Hm; simpl iter_pos.
  - destruct (shr_1_digits mrs Hm) as [H1 D1].
    destruct (IH _ H1) as [H2 D2]. destruct (IH _ H2) as [H3 D3].
    split; [exact H3|]. rewrite D3, D2, D1. lia.
  - destruct (IH _ Hm) as [H2 D2]. destruct (IH _ H2) as [H3 D3].
    split; [exact H3|]. rewrite D3, D2. lia.
  - apply shr_1_digits. exact Hm.
Qed.

Section Format.


Variables prec emax : Z.
Hypothesis prec_pos : 0 < prec.

Lemma fexp_le (v K : Z) : v <= K -> fexp prec emax v <= Z.max (K - prec) (emin prec emax).
Proof. unfold fexp. lia. Qed.

Lemma shr_fexp_bound (m e : Z) (l : location) (E K : Z) :
  0 <= m -> e <= E -> Zdigits2 m + e <= K ->
  0 <= shr_m (fst (shr_fexp prec emax m e l))
  /\ snd (shr_fexp prec emax m e l) <= Z.max (Z.max E (K - prec)) (emin prec emax)
  /\ Zdigits2 (shr_m (fst (shr_fexp prec emax m e l))) + snd (shr_fexp prec emax m e l)
     <= Z.max K (snd (shr_fexp prec emax m e l))
  /\ e <= snd (shr_fexp prec emax m e l).
Proof.
  intros Hm He HK. unfold shr_fexp, shr.
  pose proof (fexp_le (Zdigits2 m + e) K HK) as Hf.
  destruct (fexp prec emax (Zdigits2 m + e) - e) as [|n|n] eqn:Hn; simpl fst; simpl snd;
    rewrite ?shr_m_of_loc; try (repeat split; lia).
  destruct (iter_shr_1_digits n (shr_record_of_loc m l)) as [H1 D1].
  { rewrite shr_m_of_loc. exact Hm. }
  rewrite shr_m_of_loc in D1. rewrite D1. repeat split; lia.
Qed.

Lemma round_nearest_even_bound (m : Z) (l : location) :
  0 <= m ->
  0 <= round_nearest_even m l
  /\ Zdigits2 (round_nearest_even m l) <= Zdigits2 m + 1.
Proof.
  intros Hm. pose proof (Zdigits2_succ_le m Hm).
  unfold round_nearest_even.
  destruct l as [|[| |]]; try destruct (Z.even m); split; lia.
Qed.

Lemma fin_mono (E K E' K' : Z) (x : spec_float) :
  fin E K x -> E <= E' -> K <= K' -> fin E' K' x.
Proof. destruct x; simpl; lia. Qed.

Lemma binary_round_aux_fin (s : bool) (m e : Z) (l : location) (E K : Z) :
  0 <= m -> e <= E -> Zdigits2 m + e <= K ->
  Z.max (Z.max E (K + 1 - prec)) (emin prec emax) <= emax - prec ->
  fin (Z.max (Z.max E (K + 1 - prec)) (emin prec emax))
      (Z.max (Z.max (K + 1) (E + 1)) (emin prec emax + 1))
      (binary_round_aux prec emax s m e l).
Proof.
  intros Hm He HK Hmax. unfold binary_round_aux.
  destruct (shr_fexp_bound m e l E K Hm He HK) as (M1 & E1 & S1 & _).
  destruct (shr_fexp prec emax m e l) as [mrs1 e1]. simpl fst in *. simpl snd in *.
  destruct (round_nearest_even_bound (shr_m mrs1) (loc_of_shr_record mrs1) M1)
    as (M2 & D2).
  set (m2 := round_nearest_even (shr_m mrs1) (loc_of_shr_record mrs1)) in *.
  destruct (shr_fexp_bound m2 e1 loc_Exact
              (Z.max (Z.max E (K - prec)) (emin prec emax))
              (Z.max (Z.max K E) (emin prec emax) + 1) M2 E1)
    as (M3 & E3 & S3 & _); [lia|].
  destruct (shr_fexp prec emax m2 e1 loc_Exact) as [mrs3 e3].
  simpl fst in *. simpl snd in *.
  destruct (shr_m mrs3) as [|m3|m3] eqn:Hm3; cbn [fin].
  - exact I.
  - destruct (e3 <=? emax - prec) eqn:Hle; cbn [fin].
    + split; lia.
    + apply Z.leb_gt in Hle. lia.
  - lia.
Qed.

Lemma binary_round_aux_not_nan (s : bool) (m e : Z) (l : location) :
  0 <= m -> binary_round_aux prec emax s m e l <> S754_nan.
Proof.
  intros Hm. unfold binary_round_aux.
  destruct (shr_fexp_bound m e l e (Zdigits2 m + e) Hm) as (M1 & _); try lia.
  destruct (shr_fexp prec emax m e l) as [mrs1 e1]. simpl fst in *.
  destruct (round_nearest_even_bound (shr_m mrs1) (loc_of_shr_record mrs1) M1)
    as (M2 & D2).
  set (m2 := round_nearest_even (shr_m mrs1) (loc_of_shr_record mrs1)) in *.
  destruct (shr_fexp_bound m2 e1 loc_Exact e1 (Zdigits2 m2 + e1) M2) as (M3 & _);
    try lia.
  destruct (shr_fexp prec emax m2 e1 loc_Exact) as [mrs3 e3]. simpl fst in *.
  destruct (shr_m mrs3) as [|m3|m3]; try discriminate; try lia.
  destruct (e3 <=? emax - prec); discriminate.
Qed.

Lemma shl_align_spec (mx : positive) (ex ex' : Z) :
  snd (shl_align mx ex ex') <= ex
  /\ Zdigits2 (Zpos (fst (shl_align mx ex ex'))) + snd (shl_align mx ex ex')
     = Zdigits2 (Zpos mx) + ex.
Proof.
  unfold shl_align. destruct (ex' - ex) as [|d|d] eqn:Hd; cbn [fst snd]; try lia.
  cbn [Zdigits2]. rewrite digits2_pos_iter_xO, Pos2Z.inj_add. lia.
Qed.

Lemma shl_align_le (mx : positive) (ex ez : Z) :
  ez <= ex -> snd (shl_align mx ex ez) = ez.
Proof.
  intros Hle. unfold shl_align.
  destruct (ez - ex) as [|d|d] eqn:Hd; cbn [snd]; lia.
Qed.

Lemma binary_round_fin (s : bool) (m : positive) (e E K : Z) :
  e <= E -> Zdigits2 (Zpos m) + e <= K ->
  Z.max (Z.max E (K + 1 - prec)) (emin prec emax) <= emax - prec ->
  fin (Z.max (Z.max E (K + 1 - prec)) (emin prec emax))
      (Z.max (Z.max (K + 1) (E + 1)) (emin prec emax + 1))
      (binary_round prec emax s m e).
Proof.
  intros He HK Hmax. unfold binary_round.
  destruct (shl_align_spec m e (fexp prec emax (Zpos (digits2_pos m) + e)))
    as (Hs & Hd).
  destruct (shl_align m e (fexp prec emax (Zpos (digits2_pos m) + e))) as [mz ez].
  cbn [fst snd] in *.
  apply binary_round_aux_fin; lia.
Qed.

Lemma binary_round_not_nan (s : bool) (m : positive) (e : Z) :
  binary_round prec emax s m e <> S754_nan.
Proof.
  unfold binary_round.
  destruct (shl_align m e (fexp prec emax (Zpos (digits2_pos m) + e))) as [mz ez].
  apply binary_round_aux_not_nan. lia.
Qed.

Lemma binary_normalize_fin (m e : Z) (sz : bool) (E K : Z) :
  e <= E -> Zdigits2 m + e <= K ->
  Z.max (Z.max E (K + 1 - prec)) (emin prec emax) <= emax - prec ->
  fin (Z.max (Z.max E (K + 1 - prec)) (emin prec emax))
      (Z.max (Z.max (K + 1) (E + 1)) (emin prec emax + 1))
      (binary_normalize prec emax m e sz).
Proof.
  intros He HK Hmax. destruct m as [|m|m]; cbn [binary_normalize].
  - exact I.
  - apply binary_round_fin; assumption.
  - apply binary_round_fin; assumption.
Qed.

Lemma SFmul_fin (x y : spec_float) (Ex Kx Ey Ky : Z) :
  fin Ex Kx x -> fin Ey Ky y ->
  Z.max (Z.max (Ex + Ey) (Kx + Ky + 1 - prec)) (emin prec emax) <= emax - prec ->
  fin (Z.max (Z.max (Ex + Ey) (Kx + Ky + 1 - prec)) (emin prec emax))
      (Z.max (Z.max (Kx + Ky + 1) (Ex + Ey + 1)) (emin prec emax + 1))
      (SFmul prec emax x y).
Proof.
  intros Hx Hy Hmax.
  destruct x as [sx|sx| |sx mx ex]; destruct y as [sy|sy| |sy my ey];
    cbn [fin] in Hx, Hy; try contradiction; cbn [SFmul]; try exact I.
  pose proof (Zdigits2_mul mx my).
  apply binary_round_aux_fin; lia.
Qed.

Lemma Zdigits2_cond_Zopp (s : bool) (z : Z) : Zdigits2 (cond_Zopp s z) = Zdigits2 z.
Proof. destruct s, z; reflexivity. Qed.

Lemma SFadd_fin (x y : spec_float) (Ex Kx Ey Ky : Z) :
  fin Ex Kx x -> fin Ey Ky y ->
  Z.max (Z.max (Z.max Ex Ey) (Z.max Kx Ky + 2 - prec)) (emin prec emax)
  <= emax - prec ->
  fin (Z.max (Z.max (Z.max Ex Ey) (Z.max Kx Ky + 2 - prec)) (emin prec emax))
      (Z.max (Z.max (Z.max Kx Ky + 2) (Z.max Ex Ey + 1)) (emin prec emax + 1))
      (SFadd prec emax x y).
Proof.
  intros Hx Hy Hmax.
  destruct x as [sx|sx| |sx mx ex]; destruct y as [sy|sy| |sy my ey];
    cbn [fin] in Hx, Hy; try contradiction; cbn [SFadd].
  - destruct sx, sy; exact I.
  - cbn [fin]. lia.
  - cbn [fin]. lia.
  - set (ez := IntDef.Z.min ex ey).
    assert (Hez : ez <= ex /\ ez <= ey) by (unfold ez; lia).
    clearbody ez.
    destruct (shl_align_spec mx ex ez) as (_ & Dx).
    destruct (shl_align_spec my ey ez) as (_ & Dy).
    rewrite shl_align_le in Dx, Dy by lia.
    pose proof (Zdigits2_add
                  (cond_Zopp sx (Zpos (fst (shl_align mx ex ez))))
                  (cond_Zopp sy (Zpos (fst (shl_align my ey ez)))))
      as Hsum.
    rewrite !Zdigits2_cond_Zopp in Hsum.
    eapply fin_mono.
    + apply (binary_normalize_fin _ _ _ (Z.max Ex Ey) (Z.max Kx Ky + 1)); lia.
    + lia.
    + lia.
Qed.

Lemma SFadd_not_nan (x y : spec_float) (Ex Kx Ey Ky : Z) :
  fin Ex Kx x -> fin Ey Ky y -> SFadd prec emax x y <> S754_nan.
Proof.
  intros Hx Hy.
  destruct x as [sx|sx| |sx mx ex]; destruct y as [sy|sy| |sy my ey];
    cbn [fin] in Hx, Hy; try contradiction; cbn [SFadd]; try discriminate.
  - destruct sx, sy; discriminate.
  - match goal with |- binary_normalize _ _ ?m _ _ <> _ => destruct m end;
      cbn [binary_normalize]; try discriminate; apply binary_round_not_nan.
Qed.

End Format.

(** ** The sound speed of finite readings *)

Ltac size_bounds :=
  unfold emin, prec64, emax64, prec32, emax32 in *; lia.

Lemma literal_sizes :
  fin (-44) 9 (double_literal 3314 10)
  /\ fin (-53) 0 (double_literal 606 1000)
  /\ fin (-59) (-6) (double_literal 124 10000).
Proof. vm_compute. repeat split; discriminate. Qed.

Lemma finite_below_fin (K : Z) (x : spec_float) :
  finite_below K x -> fin (K - 1) K x.
Proof.
  destruct x as [s|s| |s m e]; cbn [finite_below fin]; auto.
  intros H. assert (1 <= Zdigits2 (Zpos m)) by (cbn [Zdigits2]; lia). lia.
Qed.

Lemma fin_finite_below (E K : Z) (x : spec_float) :
  fin E K x -> finite_below K x.
Proof. destruct x; cbn [finite_below fin]; tauto. Qed.

Lemma finite_below_mono (K K' : Z) (x : spec_float) :
  finite_below K x -> K <= K' -> finite_below K' x.
Proof. destruct x; cbn [finite_below]; auto. intros; lia. Qed.

(** Every finite binary32 number is below [2^128]. *)
Lemma binary32_finite_below (s : bool) (m : positive) (e : Z) :
  valid_binary prec32 emax32 (S754_finite s m e) = true ->
  finite_below emax32 (S754_finite s m e).
Proof.
  cbn [valid_binary finite_below]. unfold bounded, canonical_mantissa, fexp.
  rewrite andb_true_iff, Z.eqb_eq, Z.leb_le. cbn [Zdigits2]. size_bounds.
Qed.

Lemma finite_below_not_nan (K : Z) (x : spec_float) :
  finite_below K x -> isnan x = false.
Proof. destruct x; cbn [finite_below isnan]; tauto. Qed.

Lemma double_of_float_fin (K : Z) (x : float) :
  -1000 <= K <= 900 ->
  finite_below K x -> fin (K - 1) (K + 1) (double_of_float x).
Proof.
  intros HK Hx. apply finite_below_fin in Hx.
  destruct x as [s|s| |s m e]; cbn [fin] in Hx; try contradiction.
  - exact I.
  - unfold double_of_float, round_to. eapply fin_mono.
    + apply (binary_round_fin prec64 emax64) with (E := K - 1) (K := K);
        size_bounds.
    + size_bounds.
    + size_bounds.
Qed.

(** The double that [loop] computes before storing it in [fSndSpd]. *)
Lemma sound_speed_double_fin (K : Z) (t h : float) :
  7 <= K <= 128 ->
  finite_below K t -> finite_below K h ->
  fin (Z.max (-44) (K - 47)) (K + 6)
      (dadd (dadd (double_literal 3314 10)
                  (dmul (double_literal 606 1000) (double_of_float t)))
            (dmul (double_literal 124 10000) (double_of_float h))).
Proof.
  intros HK Ht Hh.
  destruct literal_sizes as (C1 & C2 & C3).
  pose proof (double_of_float_fin K t ltac:(lia) Ht) as T.
  pose proof (double_of_float_fin K h ltac:(lia) Hh) as H.
  assert (P1 : fin (K - 51) (K + 2)
                   (dmul (double_literal 606 1000) (double_of_float t))).
  { eapply fin_mono;
      [apply (SFmul_fin prec64 emax64 ltac:(reflexivity) _ _ _ _ _ _ C2 T) | |];
      size_bounds. }
  assert (S1 : fin (Z.max (-44) (K - 49)) (K + 4)
                   (dadd (double_literal 3314 10)
                         (dmul (double_literal 606 1000) (double_of_float t)))).
  { eapply fin_mono;
      [apply (SFadd_fin prec64 emax64 ltac:(reflexivity) _ _ _ _ _ _ C1 P1) | |];
      size_bounds. }
  assert (P2 : fin (K - 57) (K - 4)
                   (dmul (double_literal 124 10000) (double_of_float h))).
  { eapply fin_mono;
      [apply (SFmul_fin prec64 emax64 ltac:(reflexivity) _ _ _ _ _ _ C3 H) | |];
      size_bounds. }
  eapply fin_mono;
    [apply (SFadd_fin prec64 emax64 ltac:(reflexivity) _ _ _ _ _ _ S1 P2) | |];
    size_bounds.
Qed.

Lemma soundSpeed_spec_of_finite (t h : float) :
  finite_below emax32 t -> finite_below emax32 h ->
  isnan (soundSpeed_spec t h) = false.
Proof.
  intros Ht Hh.
  pose proof (sound_speed_double_fin 128 t h ltac:(lia) Ht Hh) as D.
  unfold soundSpeed_spec, float_of_double, round_to.
  destruct (dadd _ _) as [s|s| |s m e]; cbn [fin] in D; try contradiction.
  - reflexivity.
  - pose proof (binary_round_not_nan prec32 emax32 ltac:(reflexivity) s m e).
    destruct (binary_round prec32 emax32 s m e); try reflexivity. congruence.
Qed.

Lemma soundSpeed_spec_finite (t h : float) :
  finite_below 121 t -> finite_below 121 h ->
  finite_below emax32 (soundSpeed_spec t h).
Proof.
  intros Ht Hh.
  pose proof (sound_speed_double_fin 121 t h ltac:(lia) Ht Hh) as D.
  unfold soundSpeed_spec, float_of_double, round_to.
  destruct (dadd _ _) as [s|s| |s m e]; cbn [fin] in D; try contradiction.
  - exact I.
  - eapply fin_finite_below, fin_mono.
    + apply (binary_round_fin prec32 emax32) with (E := 74) (K := 127);
        size_bounds.
    + apply Z.le_refl.
    + size_bounds.
Qed.

(** ** The cadence of the measurements *)

Lemma loop_keeps_flag (chi : float -> float -> bool -> float)
  (w : Env) (g : Globals) :
  bRunServer (globals (loop chi w g)) = bRunServer g.
Proof.
  destruct (due w g) eqn:Hdue.
  - rewrite (loop_fire chi w g Hdue). reflexivity.
  - rewrite (loop_idle chi w g Hdue). reflexivity.
Qed.

Lemma wrap_ulong_add_l (a d : Z) :
  wrap_ulong (a + d) = wrap_ulong (wrap_ulong a + d).
Proof. unfold wrap_ulong. rewrite Zplus_mod_idemp_l. reflexivity. Qed.

Lemma wrap_ulong_idem (z : Z) : wrap_ulong (wrap_ulong z) = wrap_ulong z.
Proof. unfold wrap_ulong. apply Zmod_mod. Qed.

(** X1: after a poll that ran an acquisition cycle, a poll [d]
    milliseconds later ([d] below [2^32]) runs the next cycle exactly when
    [d] is greater than [DHT_MEASURETIME], also when the millisecond
    counter has wrapped around between the two polls. *)
Theorem next_cycle_after_interval
  (computeHeatIndex : float -> float -> bool -> float)
  (w1 w2 : Env) (g : Globals) (d : Z) :
  fires computeHeatIndex w1 g = true ->
  0 <= d < 2 ^ ULONG_WIDTH ->
  wrap_ulong (millis w2) = wrap_ulong (millis w1 + d) ->
  (fires computeHeatIndex w2 (globals (loop computeHeatIndex w1 g)) = true
   <-> DHT_MEASURETIME < d).
Proof.
  intros Hfires Hd Hlater. rewrite fires_due in Hfires.
  rewrite fires_due, (loop_fire computeHeatIndex w1 g Hfires).
  apply due_spec in Hfires. destruct Hfires as (Hon & _).
  rewrite due_spec. cbv beta iota delta [globals fst snd].
  assert (Helapsed : elapsed w2 (acquired computeHeatIndex w1 g) = d).
  { unfold elapsed, acquired. cbn [ulMeasureTime].
    rewrite Hlater, wrap_ulong_add_l. apply ulong_sub_wrap_safe. exact Hd. }
  rewrite Helapsed. cbn [acquired bRunServer]. rewrite Hon. tauto.
Qed.

Lemma next_cycle_after_interval_witness :
  fires exampleHeatIndex (env_22_5_55 4294967290) (after_setup connected) = true
  /\ 0 <= 30001 < 2 ^ ULONG_WIDTH
  /\ wrap_ulong (millis (env_22_5_55 29995))
     = wrap_ulong (millis (env_22_5_55 4294967290) + 30001)
  /\ (fires exampleHeatIndex (env_22_5_55 29995)
            (globals (loop exampleHeatIndex (env_22_5_55 4294967290)
                           (after_setup connected))) = true
      <-> DHT_MEASURETIME < 30001).
Proof.
  split; [reflexivity |]. split; [vm_compute; split; [discriminate | reflexivity] |].
  split; [reflexivity |].
  apply (next_cycle_after_interval exampleHeatIndex
           (env_22_5_55 4294967290) (env_22_5_55 29995)
           (after_setup connected) 30001).
  - reflexivity.
  - vm_compute; split; [discriminate | reflexivity].
  - reflexivity.
Defined.

(** X2: [ulMeasureTime] starts at 0, so after a [setup] that connected the
    first acquisition cycle runs in the first poll whose [millis()] is
    greater than [DHT_MEASURETIME]: there is no measurement during the
    first 30000 milliseconds of uptime. *)
Theorem first_cycle_after_interval_of_uptime
  (computeHeatIndex : float -> float -> bool -> float)
  (e : SetupEnv) (w : Env) :
  autoConnect e = true ->
  (fires computeHeatIndex w (after_setup e) = true
   <-> DHT_MEASURETIME < wrap_ulong (millis w)).
Proof.
  intros Hconnected. rewrite fires_due, due_spec, after_setup_eq, Hconnected.
  unfold elapsed, ulong_sub. cbn [set_bRunServer startup bRunServer ulMeasureTime].
  rewrite Z.sub_0_r, wrap_ulong_idem. tauto.
Qed.

Lemma first_cycle_after_interval_of_uptime_witness :
  autoConnect connected = true
  /\ (fires exampleHeatIndex (env_22_5_55 30000) (after_setup connected) = true
      <-> DHT_MEASURETIME < wrap_ulong (millis (env_22_5_55 30000))).
Proof.
  split; [reflexivity |].
  apply (first_cycle_after_interval_of_uptime exampleHeatIndex connected
           (env_22_5_55 30000)).
  reflexivity.
Defined.

(** X5: no poll changes [bRunServer]: over any sequence of polls it keeps
    the value [setup] gave it. *)
Theorem run_keeps_server_flag
  (computeHeatIndex : float -> float -> bool -> float)
  (ws : list Env) (g : Globals) :
  bRunServer (globals (run computeHeatIndex ws g)) = bRunServer g.
Proof.
  revert g. induction ws as [|w ws IH]; intros g.
  - reflexivity.
  - destruct (run_cons computeHeatIndex w ws g) as [Hg _].
    rewrite Hg, IH. apply loop_keeps_flag.
Qed.

(** ** Callbacks and output functions *)

(** X3: the output functions of the web routes, [processOutput] for any
    placeholder, and the two callbacks assign no global variable and read
    no sensor: they only show what [loop] stored. *)
Theorem outputs_and_callbacks_are_read_only
  (String_of_float : float -> string)
  (w : Env) (var : string) (p : PortalEnv) (pinLevel : Level) (g : Globals) :
  read_only (outputTemperature String_of_float g) g
  /\ read_only (outputHumidity String_of_float g) g
  /\ read_only (outputMeasureTime g) g
  /\ read_only (outputCurrentTime w g) g
  /\ read_only (processOutput String_of_float w var g) g
  /\ read_only (configModeCallback p g) g
  /\ read_only (tickLED pinLevel g) g.
Proof.
  assert (HT : read_only (outputTemperature String_of_float g) g).
  { unfold read_only, outputTemperature, bind, get.
    destruct (isnan (fTmp g)); repeat split. }
  assert (HH : read_only (outputHumidity String_of_float g) g).
  { unfold read_only, outputHumidity, bind, get.
    destruct (isnan (fHum g)); repeat split. }
  assert (HM : read_only (outputMeasureTime g) g) by (repeat split).
  assert (HC : read_only (outputCurrentTime w g) g) by (repeat split).
  repeat split; try (apply HT); try (apply HH);
    unfold processOutput;
    destruct (String.eqb var "TEMPERATURE"); try apply HT;
    destruct (String.eqb var "HUMIDITY"); try apply HH;
    destruct (String.eqb var "MEASURETIME"); try apply HM;
    destruct (String.eqb var "REFRESHTIME"); try apply HC;
    reflexivity.
Qed.

Lemma output_values_of_sample (String_of_float : float -> string)
  (rq : Env) (g : Globals) :
  value (processOutput String_of_float rq "TEMPERATURE" g)
  = (if isnan (temperatureCelsius (read g)) then "N/A"
     else String_of_float (temperatureCelsius (read g)))
  /\ value (processOutput String_of_float rq "HUMIDITY" g)
     = (if isnan (humidityPercent (read g)) then "N/A"
        else String_of_float (humidityPercent (read g)))
  /\ value (processOutput String_of_float rq "MEASURETIME" g)
     = formattedTimestamp (read g)
  /\ value (processOutput String_of_float rq "REFRESHTIME" g)
     = formattedTime rq.
Proof.
  cbn [processOutput String.eqb Ascii.eqb Bool.eqb read temperatureCelsius
       humidityPercent formattedTimestamp].
  unfold outputTemperature, outputHumidity, bind, get.
  repeat split.
  - destruct (isnan (fTmp g)); reflexivity.
  - destruct (isnan (fHum g)); reflexivity.
Qed.

(** X4: what an acquisition cycle stored is what the page shows, until the
    next cycle: after any further polls without a sensor read, the
    placeholders TEMPERATURE and HUMIDITY give [String] of that cycle's
    readings ("N/A" for a not-a-number one), MEASURETIME gives the time
    fetched in that cycle, and REFRESHTIME the time at the request. *)
Theorem page_shows_last_cycle
  (String_of_float : float -> string)
  (computeHeatIndex : float -> float -> bool -> float)
  (w rq : Env) (ws : list Env) (g : Globals) :
  fires computeHeatIndex w g = true ->
  sensor_reads
    (trace (run computeHeatIndex ws (globals (loop computeHeatIndex w g))))
  = 0%nat ->
  value (processOutput String_of_float rq "TEMPERATURE"
           (globals (run computeHeatIndex ws (globals (loop computeHeatIndex w g)))))
  = (if isnan (temperature w) then "N/A" else String_of_float (temperature w))
  /\ value (processOutput String_of_float rq "HUMIDITY"
              (globals (run computeHeatIndex ws
                            (globals (loop computeHeatIndex w g)))))
     = (if isnan (humidity w) then "N/A" else String_of_float (humidity w))
  /\ value (processOutput String_of_float rq "MEASURETIME"
              (globals (run computeHeatIndex ws
                            (globals (loop computeHeatIndex w g)))))
     = formattedTime w
  /\ value (processOutput String_of_float rq "REFRESHTIME"
              (globals (run computeHeatIndex ws
                            (globals (loop computeHeatIndex w g)))))
     = formattedTime rq.
Proof.
  intros Hfires Hnone. rewrite fires_due in Hfires.
  destruct (output_values_of_sample String_of_float rq
              (globals (run computeHeatIndex ws
                            (globals (loop computeHeatIndex w g)))))
    as (VT & VH & VM & VR).
  rewrite VT, VH, VM, VR.
  rewrite (run_without_reads computeHeatIndex ws _ Hnone).
  rewrite (loop_fire computeHeatIndex w g Hfires).
  repeat split.
Qed.

Lemma page_shows_last_cycle_witness :
  fires exampleHeatIndex (env_22_5_55 30001) (after_setup connected) = true
  /\ sensor_reads
       (trace (run exampleHeatIndex [env_failed_temperature 40000]
                   (globals (loop exampleHeatIndex (env_22_5_55 30001)
                                  (after_setup connected))))) = 0%nat
  /\ value (processOutput exampleString_of_float (env_failed_temperature 40001)
              "MEASURETIME"
              (globals (run exampleHeatIndex [env_failed_temperature 40000]
                            (globals (loop exampleHeatIndex (env_22_5_55 30001)
                                           (after_setup connected))))))
     = formattedTime (env_22_5_55 30001).
Proof.
  split; [reflexivity |]. split; [reflexivity |].
  apply (page_shows_last_cycle exampleString_of_float exampleHeatIndex
           (env_22_5_55 30001) (env_failed_temperature 40001)
           [env_failed_temperature 40000] (after_setup connected));
    reflexivity.
Defined.

(** ** The stored sample over the life of the device *)

Lemma loop_keeps_derived (chi : float -> float -> bool -> float)
  (w : Env) (g : Globals) :
  read g = read startup \/ derived_from_own_readings chi (read g) ->
  read (globals (loop chi w g)) = read startup
  \/ derived_from_own_readings chi (read (globals (loop chi w g))).
Proof.
  intros Hinv. destruct (due w g) eqn:Hdue.
  - rewrite (loop_fire chi w g Hdue). right. split; reflexivity.
  - destruct (idle_keeps chi w g Hdue) as (Hread & _). rewrite Hread. exact Hinv.
Qed.

(** X6: at every poll boundary after [setup], the stored sample is either
    the all-zero sample the device starts with or a sample whose heat index
    and sound speed are those of its own temperature and humidity. *)
Theorem stored_sample_is_startup_or_consistent
  (computeHeatIndex : float -> float -> bool -> float)
  (e : SetupEnv) (ws : list Env) :
  read (globals (run computeHeatIndex ws (after_setup e))) = read startup
  \/ derived_from_own_readings computeHeatIndex
       (read (globals (run computeHeatIndex ws (after_setup e)))).
Proof.
  assert (Hgen : forall (l : list Env) (g : Globals),
             read g = read startup
             \/ derived_from_own_readings computeHeatIndex (read g) ->
             read (globals (run computeHeatIndex l g)) = read startup
             \/ derived_from_own_readings computeHeatIndex
                  (read (globals (run computeHeatIndex l g)))).
  { induction l as [|w l IH]; intros g Hinv.
    - exact Hinv.
    - destruct (run_cons computeHeatIndex w l g) as [Hg _]. rewrite Hg.
      apply IH, loop_keeps_derived, Hinv. }
  apply Hgen. left. rewrite after_setup_eq. reflexivity.
Qed.

(** ** The status LED *)

Lemma led_after_app (l : Level) (t1 t2 : list Event) :
  led_after l (t1 ++ t2) = led_after (led_after l t1) t2.
Proof.
  revert l. induction t1 as [|e t1 IH]; intros l; [reflexivity|].
  destruct e as [| [|n] lv | | | | | | | | | | | | |]; cbn [app led_after]; apply IH.
Qed.

Lemma loop_led (chi : float -> float -> bool -> float)
  (w : Env) (g : Globals) (l : Level) :
  led_after l (trace (loop chi w g)) = if due w g then LOW else l.
Proof.
  destruct (due w g) eqn:Hdue.
  - rewrite (loop_fire chi w g Hdue). reflexivity.
  - rewrite (loop_idle chi w g Hdue). reflexivity.
Qed.

Lemma run_led_off (chi : float -> float -> bool -> float)
  (ws : list Env) : forall g : Globals,
  led_after LOW (trace (run chi ws g)) = LOW.
Proof.
  induction ws as [|w ws IH]; intros g; [reflexivity|].
  destruct (run_cons chi w ws g) as [_ Ht].
  rewrite Ht, led_after_app, loop_led.
  destruct (due w g); apply IH.
Qed.

(** X7: once [setup] has connected, the built-in LED is off whenever a
    poll returns, whatever its level was before [setup]: [loop] switches it
    on only for the duration of an acquisition cycle. *)
Theorem led_off_between_polls
  (computeHeatIndex : float -> float -> bool -> float)
  (e : SetupEnv) (ws : list Env) (before : Level) :
  autoConnect e = true ->
  led_after before
    (trace (setup e startup) ++ trace (run computeHeatIndex ws (after_setup e)))
  = LOW.
Proof.
  intros Hconnected. rewrite led_after_app.
  replace (led_after before (trace (setup e startup))) with LOW.
  - apply run_led_off.
  - destruct e as [ac ip t]. cbn [autoConnect] in Hconnected. subst ac.
    reflexivity.
Qed.

Lemma led_off_between_polls_witness :
  autoConnect connected = true
  /\ led_after HIGH
       (trace (setup connected startup)
        ++ trace (run exampleHeatIndex [env_22_5_55 30001; env_22_5_55 30002]
                      (after_setup connected)))
     = LOW.
Proof.
  split; [reflexivity |].
  apply (led_off_between_polls exampleHeatIndex connected
           [env_22_5_55 30001; env_22_5_55 30002] HIGH).
  reflexivity.
Defined.

(** ** A failed connection *)

(** X8: when [wm.autoConnect()] fails, [setup] registers no route, starts
    neither the web server nor the NTP client, leaves the LED ticker
    attached and does not write the LED; and since [bRunServer] is false,
    no later poll reads the sensor and the sample stays the all-zero one. *)
Theorem failed_connection_disables_device
  (computeHeatIndex : float -> float -> bool -> float)
  (e : SetupEnv) (ws : list Env) (before : Level) :
  autoConnect e = false ->
  routes_registered (trace (setup e startup)) = []
  /\ calls "oWebServer.begin" (trace (setup e startup)) = false
  /\ calls "clientNTP.begin" (trace (setup e startup)) = false
  /\ calls "ledTicker.attach" (trace (setup e startup)) = true
  /\ calls "ledTicker.detach" (trace (setup e startup)) = false
  /\ led_after before (trace (setup e startup)) = before
  /\ sensor_reads (trace (run computeHeatIndex ws (after_setup e))) = 0%nat
  /\ read (globals (run computeHeatIndex ws (after_setup e))) = read startup.
Proof.
  intros Hfailed.
  assert (Hoff : bRunServer (after_setup e) = false).
  { rewrite after_setup_eq, Hfailed. reflexivity. }
  destruct (run_server_off computeHeatIndex ws (after_setup e) Hoff)
    as (Hreads & Hread & _).
  rewrite Hreads, Hread, after_setup_eq.
  destruct e as [ac ip t]. cbn [autoConnect] in Hfailed. subst ac.
  repeat split.
Qed.

Lemma failed_connection_disables_device_witness :
  autoConnect not_connected = false
  /\ sensor_reads
       (trace (run exampleHeatIndex [env_22_5_55 30001; env_22_5_55 90000]
                   (after_setup not_connected))) = 0%nat.
Proof.
  split; [reflexivity |].
  apply (failed_connection_disables_device exampleHeatIndex not_connected
           [env_22_5_55 30001; env_22_5_55 90000] LOW).
  reflexivity.
Defined.

(** ** Not-a-number and overflow in the stored sound speed *)

(** X9: when both readings of an acquisition cycle are readings as the
    sensor library gives them (not-a-number or a finite binary32 number),
    the stored sound speed is not-a-number exactly when one of the two
    readings is: the arithmetic itself never produces a not-a-number. *)
Theorem sound_speed_nan_iff_failed_reading
  (computeHeatIndex : float -> float -> bool -> float)
  (w : Env) (g : Globals) :
  fires computeHeatIndex w g = true ->
  reading (temperature w) ->
  reading (humidity w) ->
  isnan (fSndSpd (globals (loop computeHeatIndex w g)))
  = isnan (temperature w) || isnan (humidity w).
Proof.
  intros Hfires Ht Hh. rewrite fires_due in Hfires.
  rewrite (loop_fire computeHeatIndex w g Hfires).
  cbv beta iota delta [globals fst snd acquired fSndSpd].
  destruct Ht as [Ht | Ht].
  - rewrite Ht. apply soundSpeed_spec_nan_temperature. exact Ht.
  - destruct Hh as [Hh | Hh].
    + rewrite Hh, orb_true_r. apply soundSpeed_spec_nan_humidity. exact Hh.
    + rewrite (finite_below_not_nan _ _ Ht), (finite_below_not_nan _ _ Hh).
      apply soundSpeed_spec_of_finite; assumption.
Qed.

Lemma sound_speed_nan_iff_failed_reading_witness :
  fires exampleHeatIndex (env_22_5_55 30001) (after_setup connected) = true
  /\ reading (temperature (env_22_5_55 30001))
  /\ reading (humidity (env_22_5_55 30001))
  /\ isnan (fSndSpd (globals (loop exampleHeatIndex (env_22_5_55 30001)
                                  (after_setup connected))))
     = isnan (temperature (env_22_5_55 30001))
       || isnan (humidity (env_22_5_55 30001)).
Proof.
  split; [reflexivity |].
  split; [right; vm_compute; discriminate |].
  split; [right; vm_compute; discriminate |].
  apply (sound_speed_nan_iff_failed_reading exampleHeatIndex
           (env_22_5_55 30001) (after_setup connected)).
  - reflexivity.
  - right. vm_compute. discriminate.
  - right. vm_compute. discriminate.
Defined.

(** X10: when both readings of an acquisition cycle are finite and below
    [2^121] in magnitude, the stored sound speed is a finite binary32
    number: neither the double arithmetic nor the conversion to [float]
    overflows. *)
Theorem sound_speed_finite_for_bounded_readings
  (computeHeatIndex : float -> float -> bool -> float)
  (w : Env) (g : Globals) :
  fires computeHeatIndex w g = true ->
  finite_below 121 (temperature w) ->
  finite_below 121 (humidity w) ->
  finite_below emax32 (fSndSpd (globals (loop computeHeatIndex w g))).
Proof.
  intros Hfires Ht Hh. rewrite fires_due in Hfires.
  rewrite (loop_fire computeHeatIndex w g Hfires).
  cbv beta iota delta [globals fst snd acquired fSndSpd].
  apply soundSpeed_spec_finite; assumption.
Qed.

Lemma sound_speed_finite_for_bounded_readings_witness :
  fires exampleHeatIndex (env_22_5_55 30001) (after_setup connected) = true
  /\ finite_below 121 (temperature (env_22_5_55 30001))
  /\ finite_below 121 (humidity (env_22_5_55 30001))
  /\ finite_below emax32
       (fSndSpd (globals (loop exampleHeatIndex (env_22_5_55 30001)
                               (after_setup connected)))).
Proof.
  split; [reflexivity |].
  split; [vm_compute; discriminate |].
  split; [vm_compute; discriminate |].
  apply (sound_speed_finite_for_bounded_readings exampleHeatIndex
           (env_22_5_55 30001) (after_setup connected)).
  - reflexivity.
  - vm_compute. discriminate.
  - vm_compute. discriminate.
Defined.
